(** * pydgeot_jinja: the Jinja processor plugin of Pydgeot

    Shallow embedding of [pydgeot/plugins/jinja/__init__.py]: the
    [SetContextExtension] tag, the two AST scans of [JinjaProcessor]
    ([_get_const_vars], [_get_context_requests]) and the two stateful entry
    points [prepare] and [generate].

    The templating engine (jinja2), the host application (pydgeot) and the
    operating system are collaborators that live outside the plugin.  Their
    answers are taken from a class of oracles ([Collaborators]); what the
    plugin does to them is recorded, in call order, in a trace of events. *)

From Stdlib Require Import ZArith SpecFloat.
From stdpp Require Import gmap strings list fin_maps.

Set Warnings "-register-all".

Open Scope string_scope.
Open Scope list_scope.

(** ** Python constants *)

(** The value of a [jinja2.nodes.Const] produced by the parser: [None], a
    boolean, an integer, a float or a string literal. *)
Inductive pyconst : Type :=
| PyNone
| PyBool (b : bool)
| PyInt (z : Z)
| PyFloat (f : spec_float)
| PyStr (s : string).

(** Python truth value testing, as used by [not template_only]. *)
Definition truthy (c : pyconst) : bool :=
  match c with
  | PyNone => false
  | PyBool b => b
  | PyInt z => negb (z =? 0)%Z
  | PyFloat (S754_zero _) => false
  | PyFloat _ => true
  | PyStr s => negb (String.eqb s "")
  end.

(** ** The template AST *)

(** [jinja2.nodes.Node]. The four classes the plugin inspects are kept with
    their fields, in the order of the class attribute [fields]; every other
    class is [Other], with its class name and its child nodes in
    [iter_child_nodes] order.  Node attributes ([lineno], [environment]) are
    not fields and are left out. *)
Inductive node : Type :=
| Name (name : string) (ctx : string)
| Const (value : pyconst)
| Assign (target : node) (expr : node)
| Call (callee : node) (args : list node) (kwargs : list node)
       (dyn_args : option node) (dyn_kwargs : option node)
| Other (class : string) (children : list node).

Definition is_Assign (n : node) : bool :=
  match n with Assign _ _ => true | _ => false end.

Definition is_Call (n : node) : bool :=
  match n with Call _ _ _ _ _ => true | _ => false end.

Definition optional (o : option node) : list node :=
  match o with Some n => [n] | None => [] end.

(** [Node.iter_child_nodes]: the fields that are nodes, and the nodes of the
    fields that are lists, in field order. *)
Definition iter_child_nodes (n : node) : list node :=
  match n with
  | Name _ _ => []
  | Const _ => []
  | Assign target expr => [target; expr]
  | Call callee args kwargs dyn_args dyn_kwargs =>
      callee :: args ++ kwargs ++ optional dyn_args ++ optional dyn_kwargs
  | Other _ children => children
  end.

(** [Node.find_all(node_type)]:
    for each child, yield it when it is of the type, then yield from the
    child's own [find_all]. The node itself is never yielded. *)
Fixpoint find_all (node_type : node -> bool) (n : node) : list node :=
  let visit (child : node) :=
    (if node_type child then [child] else []) ++ find_all node_type child in
  match n with
  | Name _ _ => []
  | Const _ => []
  | Assign target expr => visit target ++ visit expr
  | Call callee args kwargs dyn_args dyn_kwargs =>
      visit callee ++ flat_map visit args ++ flat_map visit kwargs
        ++ match dyn_args with Some d => visit d | None => [] end
        ++ match dyn_kwargs with Some d => visit d | None => [] end
  | Other _ children => flat_map visit children
  end.

(** The traversal order of the AST: a node, then its children's subtrees
    from left to right. *)
Fixpoint walk (n : node) : list node :=
  n :: match n with
       | Name _ _ => []
       | Const _ => []
       | Assign target expr => walk target ++ walk expr
       | Call callee args kwargs dyn_args dyn_kwargs =>
           walk callee ++ flat_map walk args ++ flat_map walk kwargs
             ++ match dyn_args with Some d => walk d | None => [] end
             ++ match dyn_kwargs with Some d => walk d | None => [] end
       | Other _ children => flat_map walk children
       end.

(** The nodes below a node, in traversal order. *)
Definition descendants (n : node) : list node := tl (walk n).

(** ** The two AST scans *)

(** [JinjaProcessor._get_const_vars]: one pass of the loop body. *)
Definition const_vars_step (const_vars : gmap string pyconst) (n : node)
  : gmap string pyconst :=
  match n with
  | Assign (Name name _) (Const value) => <[name := value]> const_vars
  | _ => const_vars
  end.

Definition _get_const_vars (ast : node) : gmap string pyconst :=
  fold_left const_vars_step (find_all is_Assign ast) ∅.

(** [JinjaProcessor._get_context_requests]: one pass of the loop body. *)
Definition context_requests_step (context_requests : list (pyconst * pyconst))
  (n : node) : list (pyconst * pyconst) :=
  match n with
  | Call (Name _ _) [Const a0; Const a1] _ _ _ => context_requests ++ [(a0, a1)]
  | _ => context_requests
  end.

Definition _get_context_requests (ast : node) : list (pyconst * pyconst) :=
  fold_left context_requests_step (find_all is_Call ast) [].

(** ** The scans in the words of the specification *)

Definition is_Name (n : node) : bool :=
  match n with Name _ _ => true | _ => false end.

Definition is_Const (n : node) : bool :=
  match n with Const _ => true | _ => false end.

(** A call-expression whose callee is a simple name and which has exactly
    two positional arguments, both constant. *)
Definition is_context_request (n : node) : bool :=
  match n with
  | Call callee args _ _ _ =>
      is_Name callee && (length args =? 2)%nat && forallb is_Const args
  | _ => false
  end.

(** The (name, value) pair of such a call: the values of its two
    arguments. *)
Definition request_pair (n : node) : option (pyconst * pyconst) :=
  match n with
  | Call _ (Const a0 :: Const a1 :: _) _ _ _ => Some (a0, a1)
  | _ => None
  end.

Definition spec_context_requests (ast : node) : list (pyconst * pyconst) :=
  omap request_pair (filter (fun n => is_context_request n = true) (descendants ast)).

(** An assignment node whose target is a simple name and whose assigned
    expression is a constant, as the pair of that name and that constant. *)
Definition const_assignment (n : node) : option (string * pyconst) :=
  match n with
  | Assign (Name name _) (Const c) => Some (name, c)
  | _ => None
  end.

Definition const_assignments (ast : node) : list (string * pyconst) :=
  omap const_assignment (descendants ast).

(** [(n, c)] is the last assignment to [n] in a list of assignments. *)
Definition last_assignment (l : list (string * pyconst)) (n : string) (c : pyconst)
  : Prop :=
  exists l1 l2, l = l1 ++ (n, c) :: l2 /\ n ∉ l2.*1.

(** Assigning one pair in a dictionary. *)
Definition assign_pair (m : gmap string pyconst) (nv : string * pyconst)
  : gmap string pyconst := <[nv.1 := nv.2]> m.

(** ** [can_process] *)

(** [str.endswith(suffix)]: the last [len(suffix)] characters of the string
    are the suffix. *)
Definition endswith (s suffix : string) : bool :=
  let n := String.length s in
  let m := String.length suffix in
  (m <=? n)%nat && String.eqb (String.substring (n - m) m s) suffix.

(** [JinjaProcessor.can_process]. *)
Definition can_process (path : string) : bool := endswith path ".html".

(** ** Python dictionaries that are iterated *)

(** [d[k] = v] on a dictionary kept in insertion order: a key that is
    already present keeps its place and takes the new value, a new key goes
    to the end.  [items()] is the list itself. *)
Fixpoint dict_set (d : list (string * pyconst)) (k : string) (v : pyconst)
  : list (string * pyconst) :=
  match d with
  | [] => [(k, v)]
  | (k', v') :: d' =>
      if decide (k' = k) then (k', v) :: d' else (k', v') :: dict_set d' k v
  end.

Fixpoint dict_get (d : list (string * pyconst)) (k : string) : option pyconst :=
  match d with
  | [] => None
  | (k', v') :: d' => if decide (k' = k) then Some v' else dict_get d' k
  end.

(** ** What the plugin sees of jinja2's parser *)

(** [jinja2.lexer.Token]. *)
Record token : Type := Token { lineno : Z; type : string; tok_value : string }.

Definition eof_token : token := Token 0 "eof" "".

(** [TokenStream.current]; an exhausted stream stays on the end-of-file
    token. *)
Definition current (stream : list token) : token := hd eof_token stream.

(** [next(stream)]: hand out the current token and move one ahead. *)
Definition stream_next (stream : list token) : token * list token :=
  (current stream, tl stream).

(** The source text as the library's parser walks through it: pieces it
    parses on its own ([PLeaf]), blocks whose body it parses recursively
    ([PNest]), places where it raises [TemplateSyntaxError] ([PError]) and
    the places where it meets a [setcontext] tag and hands its token stream,
    standing on the tag name, to [SetContextExtension.parse] ([PExt]). *)
Inductive ptree : Type :=
| PLeaf (n : node)
| PNest (class : string) (body : list ptree)
| PExt (stream : list token)
| PError.

(** ** The host, the operating system and the trace *)

(** The host's record of a source file, as far as [generate] reads it. *)
Record Source : Type := { size : Z; modified : Z }.

(** Values put in the rendering context. *)
Inductive jvalue : Type :=
| JStr (s : string)
| JList (l : list string)
| JNum (z : Z).

(** Calls of the plugin on its collaborators that change them. Targets are
    named by their paths. *)
Inductive event : Type :=
| sources_set_targets (path : string) (targets : list string)
| sources_set_dependencies (path : string) (dependencies : list string)
| contexts_clear_dependencies (path : string)
| contexts_add_dependency (path : string) (name value : pyconst)
| contexts_remove_context (path : string)
| contexts_set_context (path : string) (name : string) (value : pyconst)
| os_makedirs (dir : string)
| open_w (target : string)
| fh_write (target : string) (text : string).

(** The exceptions that go through the plugin. *)
Inductive exn : Type :=
| OSError
| TemplateSyntaxError
| AttributeError
| TemplateError
| TemplateAssertionError
| UnicodeEncodeError.

(** Everything the plugin asks of its collaborators. An answer may depend on
    what has been done so far (the trace); [None] and [false] stand for a
    raised exception, except for [fh_write_raises], which gives the exception
    that writing the text and closing the file raises, if any.
    [template_loads] gives the sources of the templates that a rendering
    loads through the environment (the templates it extends, includes or
    imports and that the environment has to compile), in loading order. *)
Class Collaborators : Type := {
  (* pydgeot: [self.app] *)
  app_target_path : string -> string;
  app_source_path : option string -> string;
  app_relative_path : string -> string;
  sources_get_source : list event -> string -> option Source;
  sources_get_targets : list event -> string -> list string;
  (* jinja2 *)
  parser_walk : string -> list ptree;
  parse_expression : list token -> option (node * list token);
  find_referenced_templates : node -> list (option string);
  compile_ok : string -> bool;
  template_loads : list event -> string -> gmap string jvalue -> list string;
  template_render : list event -> string -> gmap string jvalue -> option string;
  (* operating system *)
  read_text : list event -> string -> option string;
  os_path_dirname : string -> string;
  makedirs_ok : list event -> string -> bool;
  open_w_ok : list event -> string -> bool;
  fh_write_raises : list event -> string -> string -> option exn
}.

(** ** The processor and the world *)

(** The attributes of a [JinjaProcessor] that change after [__init__]. *)
Record JinjaProcessor : Type := {
  _generate : gmap string (string * node);
  _set_contexts : list (string * pyconst);
  current_path : option string
}.

(** [JinjaProcessor.__init__]. *)
Definition init : JinjaProcessor :=
  {| _generate := ∅; _set_contexts := []; current_path := None |}.

Record world : Type := { processor : JinjaProcessor; trace : list event }.

(** ** The state monad of the plugin *)

Inductive result (A : Type) : Type :=
| Ok (a : A)
| Raise (e : exn).
Arguments Ok {A} a.
Arguments Raise {A} e.

(** A computation runs on a world and leaves a world behind, also when it
    raises: what was changed before the exception stays changed. *)
Definition M (A : Type) : Type := world -> result A * world.

Definition ret {A} (a : A) : M A := fun w => (Ok a, w).

Definition raise {A} (e : exn) : M A := fun w => (Raise e, w).

Definition bind {A B} (c : M A) (k : A -> M B) : M B :=
  fun w => match c w with
           | (Ok a, w') => k a w'
           | (Raise e, w') => (Raise e, w')
           end.

Declare Scope py_scope.
Delimit Scope py_scope with py.
Notation "x <- c ;; k" := (bind c (fun x => k))
  (at level 20, c at level 99, k at level 200, only parsing) : py_scope.
Notation "c ;; k" := (bind c (fun _ => k))
  (at level 100, k at level 200, only parsing, right associativity) : py_scope.
Open Scope py_scope.

Definition get_self : M JinjaProcessor := fun w => (Ok (processor w), w).

Definition get_trace : M (list event) := fun w => (Ok (trace w), w).

Definition set_self (f : JinjaProcessor -> JinjaProcessor) : M unit :=
  fun w => (Ok tt, {| processor := f (processor w); trace := trace w |}).

(** A call that changes a collaborator is appended to the trace. *)
Definition emit (e : event) : M unit :=
  fun w => (Ok tt, {| processor := processor w; trace := trace w ++ [e] |}).

Definition expect_some {A} (o : option A) (e : exn) : M A :=
  match o with Some a => ret a | None => raise e end.

Definition expect_true (b : bool) (e : exn) : M unit :=
  if b then ret tt else raise e.

Definition raise_if_any (o : option exn) : M unit :=
  match o with Some e => raise e | None => ret tt end.

(** A [for] loop whose body only has effects. *)
Fixpoint for_each {A} (l : list A) (body : A -> M unit) : M unit :=
  match l with
  | [] => ret tt
  | x :: l' => body x ;; for_each l' body
  end.

Definition with_generate (f : gmap string (string * node) -> gmap string (string * node))
  (p : JinjaProcessor) : JinjaProcessor :=
  {| _generate := f (_generate p);
     _set_contexts := _set_contexts p;
     current_path := current_path p |}.

Definition with_set_contexts (f : list (string * pyconst) -> list (string * pyconst))
  (p : JinjaProcessor) : JinjaProcessor :=
  {| _generate := _generate p;
     _set_contexts := f (_set_contexts p);
     current_path := current_path p |}.

Definition with_current_path (c : option string) (p : JinjaProcessor) : JinjaProcessor :=
  {| _generate := _generate p;
     _set_contexts := _set_contexts p;
     current_path := c |}.

(** ** The plugin *)

Section Plugin.
Context `{Collaborators}.

(** [JinjaProcessor.add_set_context]. *)
Definition add_set_context (name : string) (value : pyconst) : M unit :=
  set_self (with_set_contexts (fun d => dict_set d name value)).

(** [TokenStream.expect(expr)] for a bare token type. *)
Definition stream_expect (expr : string) (stream : list token)
  : M (token * list token) :=
  if String.eqb (type (current stream)) expr
  then ret (stream_next stream)
  else raise TemplateSyntaxError.

(** Reading the attribute [value] of an expression node: only a [Const] has
    it among the nodes an expression parses to. *)
Definition attr_value (n : node) : M pyconst :=
  match n with
  | Const value => ret value
  | _ => raise AttributeError
  end.

(** [SetContextExtension.parse]. The result is the list of nodes the tag
    contributes to the enclosing body (the single [Assign] node, or the empty
    list), with what is left of the stream. *)
Definition SetContextExtension_parse (stream : list token)
  : M (list node * list token) :=
  let (tag, stream) := stream_next stream in
  let line_no := lineno tag in
  r <- stream_expect "name" stream ;;
  let (name, stream) := r : token * list token in
  if String.eqb (type (current stream)) "assign" then
    let (_, stream) := stream_next stream in
    r <- expect_some (parse_expression stream) TemplateSyntaxError ;;
    let (value, stream) := r : node * list token in
    v <- attr_value value ;;
    add_set_context (tok_value name) v ;;
    let name_node := Name (tok_value name) "store" in
    let value_node := Const v in
    ret ([Assign name_node value_node], stream)
  else
    ret ([], stream).

(** The library's parser at work ([Parser.subparse]): the nodes of a body in
    source order.  At a [setcontext] tag the extension is called, its nodes
    join the body, and the block must end there. *)
Fixpoint subparse (t : ptree) : M (list node) :=
  match t with
  | PLeaf n => ret [n]
  | PNest class body =>
      ns <- (fix subparse_body (ts : list ptree) : M (list node) :=
               match ts with
               | [] => ret []
               | t :: ts' =>
                   ns <- subparse t ;;
                   ms <- subparse_body ts' ;;
                   ret (ns ++ ms)
               end) body ;;
      ret [Other class ns]
  | PExt stream =>
      r <- SetContextExtension_parse stream ;;
      let (rv, stream) := r : list node * list token in
      stream_expect "block_end" stream ;;
      ret rv
  | PError => raise TemplateSyntaxError
  end.

(** A whole body: the statements one after the other. *)
Fixpoint subparse_body (ts : list ptree) : M (list node) :=
  match ts with
  | [] => ret []
  | t :: ts' =>
      ns <- subparse t ;;
      ms <- subparse_body ts' ;;
      ret (ns ++ ms)
  end.

(** [Environment.parse(source)]: the [Template] node over the body of the
    source. *)
Definition env_parse (source : string) : M node :=
  body <- subparse_body (parser_walk source) ;;
  ret (Other "Template" body).

(** [JinjaProcessor.target_path]. *)
Definition target_path (path : string) : string := app_target_path path.

(** [open(path).read()]. *)
Definition read_file (path : string) : M string :=
  tr <- get_trace ;;
  expect_some (read_text tr path) OSError.

(** [JinjaProcessor.prepare]. *)
Definition prepare (path : string) : M unit :=
  self <- get_self ;;
  if decide (_generate self !! path = None) then (
    set_self (with_current_path (Some path)) ;;
    set_self (with_set_contexts (fun _ => [])) ;;
    let target := target_path path in
    text <- read_file path ;;
    ast <- env_parse text ;;
    emit (sources_set_targets path [target]) ;;
    emit (sources_set_dependencies path
            (map app_source_path (find_referenced_templates ast))) ;;
    let consts := _get_const_vars ast in
    let template_only := default (PyBool false) (consts !! "template_only") in
    emit (contexts_clear_dependencies path) ;;
    for_each (_get_context_requests ast)
      (fun nv => emit (contexts_add_dependency path (fst nv) (snd nv))) ;;
    emit (contexts_remove_context path) ;;
    self <- get_self ;;
    for_each (_set_contexts self)
      (fun nv => emit (contexts_set_context path (fst nv) (snd nv))) ;;
    if negb (truthy template_only)
    then set_self (with_generate (fun g => <[path := (target, ast)]> g))
    else ret tt)
  else
    ret tt.

(** The rendering context [generate] builds for a path. *)
Definition context_dict (tr : list event) (path : string) : gmap string jvalue :=
  let context_dict := ∅ in
  match sources_get_source tr path with
  | Some source =>
      let targets := sources_get_targets tr path in
      let context_dict :=
        match targets with
        | [target] => <["url" := JStr ("/" +:+ app_relative_path target)]> context_dict
        | _ => context_dict
        end in
      let context_dict :=
        <["urls" := JList (map (fun target => "/" +:+ app_relative_path target) targets)]>
          context_dict in
      let context_dict := <["size" := JNum (size source)]> context_dict in
      <["modified" := JNum (modified source)]> context_dict
  | None => context_dict
  end.

(** [Environment.from_string(source)], and the loading of a template by the
    environment: the source is parsed, which runs the extension, and the AST
    is compiled, which may raise although the source has parsed; the template
    that comes out renders that source. *)
Definition env_from_string (source : string) : M string :=
  env_parse source ;;
  expect_true (compile_ok source) TemplateAssertionError ;;
  ret source.

(** [template.render] on the context: the templates the rendering needs
    are loaded through the environment of the processor, each parsed and
    compiled as above, so that their [setcontext] tags are collected too;
    then the text comes out, or the rendering raises. *)
Definition render (template : string) (context : gmap string jvalue) : M string :=
  tr <- get_trace ;;
  for_each (template_loads tr template context)
           (fun source => env_from_string source ;; ret tt) ;;
  expect_some (template_render tr template context) TemplateError.

(** [JinjaProcessor.generate]. *)
Definition generate (path : string) : M unit :=
  self <- get_self ;;
  match _generate self !! path with
  | Some (target, ast) =>
      text <- read_file path ;;
      template <- env_from_string text ;;
      tr <- get_trace ;;
      let context_dict := context_dict tr path in
      tr <- get_trace ;;
      expect_true (makedirs_ok tr (os_path_dirname target)) OSError ;;
      emit (os_makedirs (os_path_dirname target)) ;;
      tr <- get_trace ;;
      expect_true (open_w_ok tr target) OSError ;;
      emit (open_w target) ;;
      rendered <- render template context_dict ;;
      tr <- get_trace ;;
      raise_if_any (fh_write_raises tr target rendered) ;;
      emit (fh_write target rendered) ;;
      set_self (with_generate (delete path))
  | None => ret tt
  end.

End Plugin.

(** ** Outcomes of the entry points *)

Section Outcomes.
Context `{Collaborators}.

(** The part of the world the parser leaves alone. *)
Definition same_frame (w w' : world) : Prop :=
  trace w' = trace w /\
  _generate (processor w') = _generate (processor w) /\
  current_path (processor w') = current_path (processor w).

(** Two worlds whose processors have collected the same set-context
    pairs. *)
Definition agree (w v : world) : Prop :=
  _set_contexts (processor w) = _set_contexts (processor v).

(** A computation that reads nothing of the world to decide its result,
    touches only the collected set-context pairs, and does to them the same
    in every world. *)
Definition parser_like {A} (c : M A) : Prop :=
  forall w v,
    fst (c w) = fst (c v) /\
    (agree w v -> agree (snd (c w)) (snd (c v))) /\
    same_frame w (snd (c w)).

(** The world with other collected set-context pairs. *)
Definition collected (d : list (string * pyconst)) (w : world) : world :=
  {| processor := with_set_contexts (fun _ => d) (processor w); trace := trace w |}.

(** Parsing a text with a processor that has collected nothing: the
    [Template] node or the exception, and the pairs collected on the way. *)
Definition fresh_parse (text : string) : result node * list (string * pyconst) :=
  let rw := env_parse text {| processor := init; trace := [] |} in
  (fst rw, _set_contexts (processor (snd rw))).

(** The calls [prepare] makes on the host for a path, given the parsed AST
    and the collected pairs, in call order. *)
Definition registration (path : string) (ast : node)
  (set_contexts : list (string * pyconst)) : list event :=
  [sources_set_targets path [target_path path];
   sources_set_dependencies path
     (map app_source_path (find_referenced_templates ast));
   contexts_clear_dependencies path]
  ++ map (fun nv => contexts_add_dependency path nv.1 nv.2)
         (_get_context_requests ast)
  ++ [contexts_remove_context path]
  ++ map (fun nv => contexts_set_context path nv.1 nv.2) set_contexts.

(** The value of [template_only] that [prepare] reads off the AST. *)
Definition template_only (ast : node) : pyconst :=
  default (PyBool false) (_get_const_vars ast !! "template_only").

(** The world in which [prepare] starts to read and parse a path. *)
Definition entered (path : string) (w : world) : world :=
  {| processor := with_set_contexts (fun _ => [])
                    (with_current_path (Some path) (processor w));
     trace := trace w |}.

(** What [prepare] comes to, case by case. *)
Definition prepare_outcome (path : string) (w : world) : result unit * world :=
  match _generate (processor w) !! path with
  | Some _ => (Ok tt, w)
  | None =>
      match read_text (trace w) path with
      | None => (Raise OSError, entered path w)
      | Some text =>
          match fresh_parse text with
          | (Raise e, d) => (Raise e, collected d (entered path w))
          | (Ok ast, d) =>
              (Ok tt,
               {| processor :=
                    {| _generate :=
                         if truthy (template_only ast)
                         then _generate (processor w)
                         else <[path := (target_path path, ast)]>
                                (_generate (processor w));
                       _set_contexts := d;
                       current_path := Some path |};
                  trace := trace w ++ registration path ast d |})
          end
      end
  end.

(** What [generate] comes to, case by case, with the runs of
    [env_from_string] and of [render] left as they are. *)
Definition generate_outcome (path : string) (w : world) : result unit * world :=
  match _generate (processor w) !! path with
  | None => (Ok tt, w)
  | Some (target, ast) =>
      match read_text (trace w) path with
      | None => (Raise OSError, w)
      | Some text =>
          let compiled := env_from_string text w in
          let dir := os_path_dirname target in
          match fst compiled with
          | Raise e => (Raise e, snd compiled)
          | Ok template =>
              if makedirs_ok (trace w) dir then
                if open_w_ok (trace w ++ [os_makedirs dir]) target then
                  let opened :=
                    {| processor := processor (snd compiled);
                       trace := trace w ++ [os_makedirs dir; open_w target] |} in
                  let out := render template (context_dict (trace w) path) opened in
                  match fst out with
                  | Raise e => (Raise e, snd out)
                  | Ok rendered =>
                      match fh_write_raises (trace opened) target rendered with
                      | Some e =>
                          (Raise e,
                           {| processor := processor (snd out);
                              trace := trace opened |})
                      | None =>
                          (Ok tt,
                           {| processor := with_generate (delete path)
                                             (processor (snd out));
                              trace := trace opened ++ [fh_write target rendered] |})
                      end
                  end
                else
                  (Raise OSError,
                   {| processor := processor (snd compiled);
                      trace := trace w ++ [os_makedirs dir] |})
              else
                (Raise OSError,
                 {| processor := processor (snd compiled); trace := trace w |})
          end
      end
  end.

(** The context dependencies registered for a path by some events, in call
    order. *)
Definition added_dependencies (path : string) (events : list event)
  : list (pyconst * pyconst) :=
  omap (fun e => match e with
                 | contexts_add_dependency p name value =>
                     if decide (p = path) then Some (name, value) else None
                 | _ => None
                 end) events.

(** The contexts set for a path by some events, in call order. *)
Definition contexts_set (path : string) (events : list event)
  : list (string * pyconst) :=
  omap (fun e => match e with
                 | contexts_set_context p name value =>
                     if decide (p = path) then Some (name, value) else None
                 | _ => None
                 end) events.

(** The files written by some events, with the text written. *)
Definition written (events : list event) : list (string * string) :=
  omap (fun e => match e with
                 | fh_write target text => Some (target, text)
                 | _ => None
                 end) events.

(** "Each invocation of [prepare] re-parses the file and re-registers its
    targets, dependencies, context dependencies and set contexts." *)
Definition every_prepare_registers : Prop :=
  forall path w text ast d,
    read_text (trace w) path = Some text ->
    fresh_parse text = (Ok ast, d) ->
    exists w', prepare path w = (Ok tt, w') /\
               trace w' = trace w ++ registration path ast d.

(** "For every two distinct source paths, the set-context pairs collected
    for one are held separately from (and never overwrite) those collected
    for the other": what the processor holds for the first path after its
    [prepare] is still held after the [prepare] of the second. *)
Definition set_contexts_kept_per_path : Prop :=
  forall p q w wp wq,
    p <> q ->
    prepare p w = (Ok tt, wp) ->
    prepare q wp = (Ok tt, wq) ->
    forall name value,
      dict_get (_set_contexts (processor wp)) name = Some value ->
      dict_get (_set_contexts (processor wq)) name = Some value.


End Outcomes.

(** ** A small site to run the plugin on *)

Module Site.

(** [{% setcontext title = "Home" %}] from the tag name on. *)
Definition tag_title (title : string) : list token :=
  [Token 1 "name" "setcontext"; Token 1 "name" "title"; Token 1 "assign" "=";
   Token 1 "string" title; Token 1 "block_end" "%}"].

(** [{{ getcontexts("kind", "post") }}]. *)
Definition call_getcontexts : node :=
  Other "Output"
    [Call (Name "getcontexts" "load") [Const (PyStr "kind"); Const (PyStr "post")]
       [] None None].

(** [{% set template_only = True %}]. *)
Definition set_template_only : node :=
  Assign (Name "template_only" "store") (Const (PyBool true)).

(** Three source files: an index page, a post and a base template. *)
Definition text_index : string :=
  "{% setcontext title = 'Home' %}{{ getcontexts('kind', 'post') }}".
Definition text_post : string := "{% setcontext title = 'Post' %}".
Definition text_base : string := "{% set template_only = True %}".

Definition walk_text (source : string) : list ptree :=
  if String.eqb source text_index then [PExt (tag_title "Home"); PLeaf call_getcontexts]
  else if String.eqb source text_post then [PExt (tag_title "Post")]
  else if String.eqb source text_base then [PLeaf set_template_only]
  else [PError].

Definition read (path : string) : option string :=
  if String.eqb path "/src/index.html" then Some text_index
  else if String.eqb path "/src/post.html" then Some text_post
  else if String.eqb path "/src/base.html" then Some text_base
  else None.

(** Only string literals and names are understood as expressions. *)
Definition expression (stream : list token) : option (node * list token) :=
  match stream with
  | Token _ "string" s :: rest => Some (Const (PyStr s), rest)
  | Token _ "name" s :: rest => Some (Name s "load", rest)
  | _ => None
  end.

(** The host knows the post, not the index page. *)
Definition source_of (path : string) : option Source :=
  if String.eqb path "/src/post.html" then Some {| size := 31; modified := 1700000000 |}
  else None.

#[export] Instance site : Collaborators := {|
  app_target_path path := "/build" +:+ path;
  app_source_path name := "/src/" +:+ default "" name;
  app_relative_path path := path;
  sources_get_source _ := source_of;
  sources_get_targets _ path := ["/build" +:+ path];
  parser_walk := walk_text;
  parse_expression := expression;
  find_referenced_templates _ := [];
  compile_ok _ := true;
  template_loads _ _ _ := [];
  template_render _ template _ := Some ("<!-- rendered -->" +:+ template);
  read_text _ := read;
  os_path_dirname _ := "/build/src";
  makedirs_ok _ _ := true;
  open_w_ok _ _ := true;
  fh_write_raises _ _ _ := None
|}.

(** The ASTs the three texts parse to. *)
Definition ast_index : node :=
  Other "Template"
    [Assign (Name "title" "store") (Const (PyStr "Home")); call_getcontexts].
Definition ast_post : node :=
  Other "Template" [Assign (Name "title" "store") (Const (PyStr "Post"))].
Definition ast_base : node := Other "Template" [set_template_only].

(** A processor that has done nothing yet. *)
Definition start : world := {| processor := init; trace := [] |}.

(** The index page has been prepared and waits for its generation. *)
Definition index_pending : world := snd (prepare "/src/index.html" start).

(** Then the post has been prepared as well. *)
Definition both_pending : world := snd (prepare "/src/post.html" index_pending).

End Site.

(** ** The template function [getcontexts] *)

(** The host's context store ([self.app.contexts]) as far as the template
    function asks it: the source paths of the results of
    [get_contexts(name, value)], and the (name, value) pairs of the results
    of [get_contexts(source=...)], both in the order the host gives them. *)
Class ContextStore : Type := {
  contexts_get_contexts : list event -> pyconst -> pyconst -> list string;
  contexts_of_source : list event -> string -> list (string * pyconst)
}.

(** A value of a dictionary handed to a template: a datum about the file, or
    the value of a context variable. *)
Inductive cvalue : Type :=
| FileData (v : jvalue)
| ContextVar (c : pyconst).

Section GetContexts.
Context `{Collaborators} `{ContextStore}.

(** The body of the loop over the results: the dictionary of one result. *)
Definition get_contexts_entry (tr : list event) (result : string)
  : gmap string cvalue :=
  let context_dict := ∅ in
  let context_dict :=
    match sources_get_source tr result with
    | Some source =>
        let targets := sources_get_targets tr result in
        let context_dict :=
          match targets with
          | [target] =>
              <["url" := FileData (JStr ("/" +:+ app_relative_path target))]>
                context_dict
          | _ => context_dict
          end in
        let context_dict :=
          <["urls" := FileData (JList (map (fun target =>
                                              "/" +:+ app_relative_path target)
                                           targets))]> context_dict in
        let context_dict := <["size" := FileData (JNum (size source))]> context_dict in
        <["modified" := FileData (JNum (modified source))]> context_dict
    | None => context_dict
    end in
  fold_left (fun context_dict context_var =>
               <[context_var.1 := ContextVar context_var.2]> context_dict)
            (contexts_of_source tr result) context_dict.

(** [get_contexts(name, value)], the global [getcontexts] of the
    templates. *)
Definition get_contexts (tr : list event) (name value : pyconst)
  : list (gmap string cvalue) :=
  fold_left (fun context_dicts result =>
               context_dicts ++ [get_contexts_entry tr result])
            (contexts_get_contexts tr name value) [].

End GetContexts.

(** ** Further notions for the properties *)

(** One assignment [d[name] = value] of a pair. *)
Definition set_pair (d : list (string * pyconst)) (nv : string * pyconst)
  : list (string * pyconst) := dict_set d nv.1 nv.2.

(** The pairs a parsing computation makes the processor collect, whatever
    the processor holds: they are assigned in order on what it holds, and
    when the computation returns they are constant assignments in the nodes
    it returns. *)
Definition collects_tags {A} (c : M A) (nodes_of : A -> list node)
  (tags : list (string * pyconst)) : Prop :=
  (forall w, _set_contexts (processor (snd (c w)))
             = fold_left set_pair tags (_set_contexts (processor w))) /\
  (forall w a, fst (c w) = Ok a ->
               forall nv, nv ∈ tags ->
                          nv ∈ omap const_assignment (flat_map walk (nodes_of a))).

(** The same tree with other names in its [Name] nodes. *)
Fixpoint rename (r : string -> string) (n : node) : node :=
  match n with
  | Name name ctx => Name (r name) ctx
  | Const value => Const value
  | Assign target expr => Assign (rename r target) (rename r expr)
  | Call callee args kwargs dyn_args dyn_kwargs =>
      Call (rename r callee) (map (rename r) args) (map (rename r) kwargs)
           (option_map (rename r) dyn_args) (option_map (rename r) dyn_kwargs)
  | Other class children => Other class (map (rename r) children)
  end.

(** The world in which an AST is recorded with a target for a path. *)
Definition recorded (path target : string) (ast : node) (w : world) : world :=
  {| processor := with_generate (fun g => <[path := (target, ast)]> g) (processor w);
     trace := trace w |}.

(** The events that are calls on the host for a path. *)
Definition host_call_for (path : string) (e : event) : Prop :=
  match e with
  | sources_set_targets p _ | sources_set_dependencies p _
  | contexts_clear_dependencies p | contexts_add_dependency p _ _
  | contexts_remove_context p | contexts_set_context p _ _ => p = path
  | os_makedirs _ | open_w _ | fh_write _ _ => False
  end.

(** The events on the file system that go to a target. *)
Definition file_event_for (dir target : string) (e : event) : Prop :=
  match e with
  | os_makedirs d => d = dir
  | open_w t | fh_write t _ => t = target
  | _ => False
  end.

(** ** The small site with a context store, and with a renderer that fails *)

Module Store.

(** The store knows the post under the kind [post]; the post has set a
    variable [url] of its own. *)
#[export] Instance store : ContextStore := {|
  contexts_get_contexts _ name value :=
    match name, value with
    | PyStr "kind", PyStr "post" => ["/src/post.html"; "/src/gone.html"]
    | _, _ => []
    end;
  contexts_of_source _ source :=
    if String.eqb source "/src/post.html"
    then [("title", PyStr "Post"); ("url", PyStr "/elsewhere"); ("title", PyStr "A post")]
    else [("kind", PyStr "post")]
|}.

End Store.

Module Outage.

(** The renderer raises for every template. *)
Definition no_render : Collaborators := {|
  app_target_path := @app_target_path Site.site;
  app_source_path := @app_source_path Site.site;
  app_relative_path := @app_relative_path Site.site;
  sources_get_source := @sources_get_source Site.site;
  sources_get_targets := @sources_get_targets Site.site;
  parser_walk := @parser_walk Site.site;
  parse_expression := @parse_expression Site.site;
  find_referenced_templates := @find_referenced_templates Site.site;
  compile_ok := @compile_ok Site.site;
  template_loads := @template_loads Site.site;
  template_render _ _ _ := None;
  read_text := @read_text Site.site;
  os_path_dirname := @os_path_dirname Site.site;
  makedirs_ok := @makedirs_ok Site.site;
  open_w_ok := @open_w_ok Site.site;
  fh_write_raises := @fh_write_raises Site.site
|}.

(** The post is pending. *)
Definition post_pending : world :=
  snd (@prepare no_render "/src/post.html" Site.start).

End Outage.

Module Layout.

(** The post extends a layout that sets a title of its own. *)
Definition text_layout : string := "{% setcontext title = 'Layout' %}".

Definition extending : Collaborators := {|
  app_target_path := @app_target_path Site.site;
  app_source_path := @app_source_path Site.site;
  app_relative_path := @app_relative_path Site.site;
  sources_get_source := @sources_get_source Site.site;
  sources_get_targets := @sources_get_targets Site.site;
  parser_walk source :=
    if String.eqb source text_layout then [PExt (Site.tag_title "Layout")]
    else @parser_walk Site.site source;
  parse_expression := @parse_expression Site.site;
  find_referenced_templates := @find_referenced_templates Site.site;
  compile_ok := @compile_ok Site.site;
  template_loads _ template _ :=
    if String.eqb template Site.text_post then [text_layout] else [];
  template_render := @template_render Site.site;
  read_text := @read_text Site.site;
  os_path_dirname := @os_path_dirname Site.site;
  makedirs_ok := @makedirs_ok Site.site;
  open_w_ok := @open_w_ok Site.site;
  fh_write_raises := @fh_write_raises Site.site
|}.

(** The post is pending. *)
Definition post_pending : world :=
  snd (@prepare extending "/src/post.html" Site.start).

End Layout.

(** * Properties *)

(** ** The traversal *)

(** Induction on a node with the hypothesis for every child. *)
Lemma node_children_ind (P : node -> Prop)
  (HName : forall name ctx, P (Name name ctx))
  (HConst : forall value, P (Const value))
  (HAssign : forall target expr, P target -> P expr -> P (Assign target expr))
  (HCall : forall callee args kwargs dyn_args dyn_kwargs,
      P callee -> Forall P args -> Forall P kwargs ->
      Forall P (optional dyn_args) -> Forall P (optional dyn_kwargs) ->
      P (Call callee args kwargs dyn_args dyn_kwargs))
  (HOther : forall class children, Forall P children -> P (Other class children)) :
  forall n, P n.
Proof.
  fix IH 1. intros [name ctx|value|target expr|callee args kwargs da dk|class children].
  - apply HName.
  - apply HConst.
  - apply HAssign; apply IH.
  - apply HCall.
    + apply IH.
    + induction args as [|a args IHargs]; constructor; [apply IH | exact IHargs].
    + induction kwargs as [|a kwargs IHkw]; constructor; [apply IH | exact IHkw].
    + destruct da as [d|]; simpl; constructor; [apply IH | constructor].
    + destruct dk as [d|]; simpl; constructor; [apply IH | constructor].
  - apply HOther.
    induction children as [|a children IHch]; constructor; [apply IH | exact IHch].
Qed.

Lemma walk_unfold (n : node) : walk n = n :: flat_map walk (iter_child_nodes n).
Proof.
  destruct n as [| |target expr|callee args kwargs [d|] [d'|]|]; simpl;
    rewrite ?flat_map_app, ?app_nil_r; simpl; rewrite ?app_nil_r; reflexivity.
Qed.

Lemma descendants_unfold (n : node) :
  descendants n = flat_map walk (iter_child_nodes n).
Proof. unfold descendants. rewrite walk_unfold. reflexivity. Qed.

(** [find_all] as the Python generator is written: over the children. *)
Lemma find_all_unfold (node_type : node -> bool) (n : node) :
  find_all node_type n =
  flat_map (fun child => (if node_type child then [child] else [])
                           ++ find_all node_type child)
           (iter_child_nodes n).
Proof.
  destruct n as [| |target expr|callee args kwargs [d|] [d'|]|]; simpl;
    rewrite ?flat_map_app, ?app_nil_r; simpl; rewrite ?app_nil_r;
    rewrite <- ?app_assoc; reflexivity.
Qed.

Lemma filter_flat_map {A B} (P : B -> Prop) `{!forall x, Decision (P x)}
  (f : A -> list B) (l : list A) :
  filter P (flat_map f l) = flat_map (fun x => filter P (f x)) l.
Proof.
  induction l as [|x l IH]; simpl; [reflexivity|].
  rewrite filter_app, IH. reflexivity.
Qed.

Lemma flat_map_Forall_ext {A B} (P : A -> Prop) (f g : A -> list B) (l : list A) :
  Forall (fun x => f x = g x) l -> flat_map f l = flat_map g l.
Proof.
  induction 1 as [|x l Hx _ IH]; simpl; [reflexivity|]. rewrite Hx, IH. reflexivity.
Qed.

(** [find_all] yields the descendants of the wanted type, in traversal
    order. *)
Lemma find_all_descendants (node_type : node -> bool) (n : node) :
  find_all node_type n = filter (fun x => node_type x = true) (descendants n).
Proof.
  induction n as [name ctx|value|target expr IHt IHe
                 |callee args kwargs da dk IHc IHa IHk IHda IHdk
                 |class children IHch] using node_children_ind;
    rewrite find_all_unfold, descendants_unfold, filter_flat_map; simpl;
    try reflexivity.
  - rewrite !app_nil_r. rewrite IHt, IHe.
    rewrite !(walk_unfold target), !(walk_unfold expr), !filter_cons.
    rewrite <- !descendants_unfold.
    repeat case_decide; repeat case_match; simpl; congruence.
  - assert (Hvisit : forall c,
      find_all node_type c = filter (fun x => node_type x = true) (descendants c) ->
      (if node_type c then [c] else []) ++ find_all node_type c =
      filter (fun x => node_type x = true) (walk c)).
    { intros c Hc. rewrite Hc, walk_unfold, filter_cons, <- descendants_unfold.
      case_decide; case_match; simpl; congruence. }
    f_equal; [apply Hvisit, IHc|].
    apply (flat_map_Forall_ext (fun _ => True)).
    rewrite !Forall_app. repeat split;
      (eapply Forall_impl; [eassumption|]); intros c Hc; apply Hvisit, Hc.
  - apply (flat_map_Forall_ext (fun _ => True)).
    eapply Forall_impl; [eassumption|]. intros c Hc. simpl in Hc.
    rewrite Hc, walk_unfold, filter_cons, <- descendants_unfold.
    case_decide; case_match; simpl; congruence.
Qed.

(** ** The scan for context requests *)

(** One pass of the loop adds the pair of the node when the node is a
    context request, and nothing otherwise. *)
Lemma context_requests_step_spec (acc : list (pyconst * pyconst)) (n : node) :
  context_requests_step acc n =
  acc ++ (if is_context_request n then from_option (fun p => [p]) [] (request_pair n)
          else []).
Proof.
  unfold context_requests_step.
  destruct n as [| | |callee args kwargs da dk|]; simpl; rewrite ?app_nil_r; try reflexivity.
  destruct callee; simpl; rewrite ?app_nil_r; try reflexivity.
  destruct args as [|a0 [|a1 [|a2 args]]]; simpl; rewrite ?app_nil_r; try reflexivity.
  - destruct a0; reflexivity.
  - destruct a0, a1; simpl; rewrite ?app_nil_r; reflexivity.
  - destruct a0, a1; simpl; rewrite ?app_nil_r; reflexivity.
Qed.

Lemma context_requests_fold (l : list node) (acc : list (pyconst * pyconst)) :
  fold_left context_requests_step l acc =
  acc ++ omap request_pair (filter (fun n => is_context_request n = true) l).
Proof.
  revert acc. induction l as [|n l IH]; intros acc; simpl.
  - rewrite app_nil_r. reflexivity.
  - rewrite IH, context_requests_step_spec, filter_cons.
    destruct (is_context_request n) eqn:Hn; case_decide; try congruence.
    + simpl. destruct (request_pair n); simpl; rewrite <- ?app_assoc; reflexivity.
    + rewrite app_nil_r. reflexivity.
Qed.

Lemma is_context_request_is_Call (n : node) :
  is_context_request n = true -> is_Call n = true.
Proof. destruct n; simpl; congruence. Qed.

Lemma filter_filter_impl {A} (P Q : A -> Prop)
  `{!forall x, Decision (P x)} `{!forall x, Decision (Q x)} (l : list A) :
  (forall x, P x -> Q x) -> filter P (filter Q l) = filter P l.
Proof.
  intros HPQ. induction l as [|x l IH]; [reflexivity|].
  rewrite !(filter_cons _ x). destruct (decide (Q x)) as [HQ|HQ].
  - rewrite filter_cons, IH. reflexivity.
  - rewrite IH. destruct (decide (P x)) as [HP|HP]; [|reflexivity].
    destruct (HQ (HPQ x HP)).
Qed.

Lemma get_context_requests_spec (ast : node) :
  _get_context_requests ast = spec_context_requests ast.
Proof.
  unfold _get_context_requests, spec_context_requests.
  rewrite context_requests_fold, find_all_descendants. simpl.
  rewrite (filter_filter_impl _ (fun x => is_Call x = true));
    [reflexivity | apply is_context_request_is_Call].
Qed.

(** A context request is a call of a simple name on two constants, and its
    pair holds the values of the two. *)
Lemma is_context_request_shape (n : node) :
  is_context_request n = true <->
  exists name ctx a0 a1 kwargs dyn_args dyn_kwargs,
    n = Call (Name name ctx) [Const a0; Const a1] kwargs dyn_args dyn_kwargs.
Proof.
  split.
  - destruct n as [| | |callee args kwargs da dk|]; simpl; try discriminate.
    destruct callee; simpl; try discriminate.
    destruct args as [|a0 [|a1 [|a2 args]]]; simpl; try discriminate.
    destruct a0, a1; simpl; try discriminate. intros _. eauto 10.
  - intros (name & ctx & a0 & a1 & kw & da & dk & ->). reflexivity.
Qed.

(** ** The scan for constant variables *)

Lemma const_vars_step_spec (m : gmap string pyconst) (n : node) :
  const_vars_step m n = from_option (assign_pair m) m (const_assignment n).
Proof.
  destruct n as [| |target expr| |]; try reflexivity.
  destruct target, expr; reflexivity.
Qed.

Lemma const_vars_fold (l : list node) (m : gmap string pyconst) :
  fold_left const_vars_step l m = fold_left assign_pair (omap const_assignment l) m.
Proof.
  revert m. induction l as [|n l IH]; intros m; simpl; [reflexivity|].
  rewrite IH, const_vars_step_spec. destruct (const_assignment n); reflexivity.
Qed.

Lemma const_assignment_is_Assign (n : node) :
  is_Some (const_assignment n) -> is_Assign n = true.
Proof. destruct n; simpl; try reflexivity; intros [? ?]; discriminate. Qed.

Lemma omap_filter_is_Some {A B} (f : A -> option B) (P : A -> Prop)
  `{!forall x, Decision (P x)} (l : list A) :
  (forall x, is_Some (f x) -> P x) -> omap f (filter P l) = omap f l.
Proof.
  intros Hf. induction l as [|x l IH]; [reflexivity|].
  rewrite filter_cons. destruct (decide (P x)) as [HP|HP]; cbn; rewrite IH.
  - reflexivity.
  - destruct (f x) eqn:Hx; [|reflexivity]. destruct HP. apply Hf. eauto.
Qed.

Lemma get_const_vars_fold (ast : node) :
  _get_const_vars ast = fold_left assign_pair (const_assignments ast) ∅.
Proof.
  unfold _get_const_vars, const_assignments.
  rewrite const_vars_fold, find_all_descendants.
  rewrite omap_filter_is_Some; [reflexivity | apply const_assignment_is_Assign].
Qed.

(** Assigning a list of pairs in order: the last pair of a name decides,
    and a name without a pair keeps what it had. *)
Lemma assign_pairs_lookup (l : list (string * pyconst)) (m : gmap string pyconst)
  (n : string) (c : pyconst) :
  fold_left assign_pair l m !! n = Some c <->
  last_assignment l n c \/ ((n ∉ l.*1) /\ m !! n = Some c).
Proof.
  revert m. induction l as [|[k v] l IH] using rev_ind; intros m.
  - simpl. split.
    + intros Hm. right. split; [apply not_elem_of_nil | exact Hm].
    + intros [(l1 & l2 & Hl & _)|[_ Hm]]; [|exact Hm].
      destruct l1; discriminate.
  - rewrite fold_left_app. simpl. unfold assign_pair at 1. simpl.
    destruct (decide (k = n)) as [->|Hkn].
    + rewrite lookup_insert_eq. split.
      * intros [= ->]. left. exists l, []. split; [reflexivity | apply not_elem_of_nil].
      * intros [(l1 & l2 & Hl & Hl2)|[Hnot _]].
        -- destruct l2 as [|p l2 _] using rev_ind.
           ++ apply app_inj_tail in Hl as [_ [= ->]]. reflexivity.
           ++ rewrite app_comm_cons, app_assoc in Hl.
              apply app_inj_tail in Hl as [_ <-].
              destruct Hl2. rewrite fmap_app. apply elem_of_app. right.
              simpl. apply list_elem_of_here.
        -- destruct Hnot. rewrite fmap_app. apply elem_of_app. right.
           simpl. apply list_elem_of_here.
    + rewrite lookup_insert_ne by exact Hkn. rewrite IH. split.
      * intros [(l1 & l2 & -> & Hl2)|[Hnot Hm]].
        -- left. exists l1, (l2 ++ [(k, v)]). split.
           ++ rewrite <- app_assoc. reflexivity.
           ++ rewrite fmap_app. intros [Hin|Hin]%elem_of_app; [exact (Hl2 Hin)|].
              simpl in Hin. apply list_elem_of_singleton in Hin. congruence.
        -- right. split; [|exact Hm].
           rewrite fmap_app. intros [Hin|Hin]%elem_of_app; [exact (Hnot Hin)|].
           simpl in Hin. apply list_elem_of_singleton in Hin. congruence.
      * intros [(l1 & l2 & Hl & Hl2)|[Hnot Hm]].
        -- left. destruct l2 as [|p l2 _] using rev_ind.
           ++ apply app_inj_tail in Hl as [_ [= ? ?]]. congruence.
           ++ rewrite app_comm_cons, app_assoc in Hl.
              apply app_inj_tail in Hl as [-> <-].
              exists l1, l2. split; [reflexivity|].
              intros Hin. apply Hl2. rewrite fmap_app. apply elem_of_app. left. exact Hin.
        -- right. split; [|exact Hm].
           intros Hin. apply Hnot. rewrite fmap_app. apply elem_of_app. left. exact Hin.
Qed.

(** ** Parsing touches only the collected set-context pairs *)

Lemma ptree_body_ind (P : ptree -> Prop)
  (HLeaf : forall n, P (PLeaf n))
  (HNest : forall class body, Forall P body -> P (PNest class body))
  (HExt : forall stream, P (PExt stream))
  (HError : P PError) :
  forall t, P t.
Proof.
  fix IH 1. intros [n|class body|stream|].
  - apply HLeaf.
  - apply HNest. induction body as [|t body IHbody]; constructor;
      [apply IH | exact IHbody].
  - apply HExt.
  - apply HError.
Qed.

Section Parsing.
Context `{Collaborators}.

Lemma same_frame_refl (w : world) : same_frame w w.
Proof. repeat split. Qed.

Lemma same_frame_trans (w1 w2 w3 : world) :
  same_frame w1 w2 -> same_frame w2 w3 -> same_frame w1 w3.
Proof. intros (? & ? & ?) (? & ? & ?). repeat split; congruence. Qed.

Lemma parser_like_ret {A} (a : A) : parser_like (ret a).
Proof. intros w v. simpl. auto using same_frame_refl. Qed.

Lemma parser_like_raise {A} (e : exn) : parser_like (@raise A e).
Proof. intros w v. simpl. auto using same_frame_refl. Qed.

Lemma parser_like_bind {A B} (c : M A) (k : A -> M B) :
  parser_like c -> (forall a, parser_like (k a)) -> parser_like (bind c k).
Proof.
  intros Hc Hk w v. unfold bind.
  destruct (Hc w v) as (Hfst & Hagree & Hframe).
  destruct (c w) as [[a|e] w1], (c v) as [[a'|e'] v1]; simpl in *; try discriminate.
  - injection Hfst as <-.
    destruct (Hk a w1 v1) as (Hfst' & Hagree' & Hframe').
    split; [exact Hfst'|]. split; [auto|]. eapply same_frame_trans; eassumption.
  - injection Hfst as <-. auto.
Qed.

Lemma parser_like_add_set_context (name : string) (value : pyconst) :
  parser_like (add_set_context name value).
Proof.
  intros w v. unfold add_set_context, set_self, agree, same_frame. simpl.
  repeat split. intros ->. reflexivity.
Qed.

Lemma parser_like_stream_expect (expr : string) (stream : list token) :
  parser_like (stream_expect expr stream).
Proof.
  unfold stream_expect.
  destruct (String.eqb _ _); auto using parser_like_ret, parser_like_raise.
Qed.

Lemma parser_like_expect_some {A} (o : option A) (e : exn) :
  parser_like (expect_some o e).
Proof. destruct o; simpl; auto using parser_like_ret, parser_like_raise. Qed.

Lemma parser_like_attr_value (n : node) : parser_like (attr_value n).
Proof. destruct n; simpl; auto using parser_like_ret, parser_like_raise. Qed.

Create HintDb parser_like.
#[local] Hint Resolve parser_like_ret parser_like_raise parser_like_add_set_context
  parser_like_stream_expect parser_like_expect_some parser_like_attr_value
  : parser_like.

Lemma parser_like_SetContextExtension_parse (stream : list token) :
  parser_like (SetContextExtension_parse stream).
Proof.
  unfold SetContextExtension_parse. simpl.
  apply parser_like_bind; [auto with parser_like|]. intros [name stream1].
  destruct (String.eqb _ _); [|auto with parser_like]. simpl.
  apply parser_like_bind; [auto with parser_like|]. intros [value stream2].
  apply parser_like_bind; [auto with parser_like|]. intros v.
  apply parser_like_bind; auto with parser_like.
Qed.

Lemma subparse_PNest (class : string) (body : list ptree) :
  subparse (PNest class body) =
  bind (subparse_body body) (fun ns => ret [Other class ns]).
Proof. reflexivity. Qed.

Lemma parser_like_subparse (t : ptree) : parser_like (subparse t).
Proof.
  induction t as [n|class body IH|stream|] using ptree_body_ind.
  - simpl. auto with parser_like.
  - rewrite subparse_PNest. apply parser_like_bind; [|auto with parser_like].
    induction IH as [|t body Ht _ IHbody]; simpl; [auto with parser_like|].
    apply parser_like_bind; [exact Ht|]. intros ns.
    apply parser_like_bind; [exact IHbody|]. auto with parser_like.
  - simpl. apply parser_like_bind; [apply parser_like_SetContextExtension_parse|].
    intros [rv stream1]. apply parser_like_bind; auto with parser_like.
  - simpl. auto with parser_like.
Qed.

Lemma parser_like_subparse_body (ts : list ptree) : parser_like (subparse_body ts).
Proof.
  induction ts as [|t ts IH]; simpl; [auto with parser_like|].
  apply parser_like_bind; [apply parser_like_subparse|]. intros ns.
  apply parser_like_bind; [exact IH|]. auto with parser_like.
Qed.

Lemma parser_like_env_parse (text : string) : parser_like (env_parse text).
Proof.
  unfold env_parse.
  apply parser_like_bind; [apply parser_like_subparse_body | auto with parser_like].
Qed.

Lemma world_frame_eq (w w' : world) :
  same_frame w w' -> w' = collected (_set_contexts (processor w')) w.
Proof.
  destruct w as [[g d c] tr], w' as [[g' d' c'] tr'].
  unfold same_frame, collected, with_set_contexts. simpl.
  intros (-> & -> & ->). reflexivity.
Qed.

(** The result of parsing a text is the same in every world; started with
    nothing collected, it leaves what a fresh parse collects. *)
Lemma env_parse_result (text : string) (w : world) :
  fst (env_parse text w) = fst (fresh_parse text).
Proof. apply parser_like_env_parse. Qed.

Lemma env_parse_run (text : string) (w : world) :
  _set_contexts (processor w) = [] ->
  env_parse text w = (fst (fresh_parse text), collected (snd (fresh_parse text)) w).
Proof.
  intros Hw.
  destruct (parser_like_env_parse text w {| processor := init; trace := [] |})
    as (Hfst & Hagree & Hframe).
  unfold fresh_parse. simpl.
  rewrite <- Hagree by exact Hw. rewrite <- Hfst.
  rewrite <- (world_frame_eq _ _ Hframe). apply surjective_pairing.
Qed.

Lemma env_parse_frame (text : string) (w : world) :
  same_frame w (snd (env_parse text w)).
Proof. apply (parser_like_env_parse text w w). Qed.

Lemma parser_like_expect_true (b : bool) (e : exn) : parser_like (expect_true b e).
Proof. destruct b; simpl; auto using parser_like_ret, parser_like_raise. Qed.

Lemma parser_like_for_each {A} (l : list A) (body : A -> M unit) :
  (forall x, parser_like (body x)) -> parser_like (for_each l body).
Proof.
  intros Hbody. induction l as [|x l IH]; simpl; [apply parser_like_ret|].
  apply parser_like_bind; [apply Hbody | intros _; exact IH].
Qed.

Lemma parser_like_env_from_string (text : string) :
  parser_like (env_from_string text).
Proof.
  unfold env_from_string.
  apply parser_like_bind; [apply parser_like_env_parse | intros _].
  apply parser_like_bind; [apply parser_like_expect_true | intros _].
  apply parser_like_ret.
Qed.

(** Compiling a source, after its parse. *)
Lemma env_from_string_run (text : string) (w : world) :
  env_from_string text w =
  (match fst (fresh_parse text) with
   | Ok _ => if compile_ok text then Ok text else Raise TemplateAssertionError
   | Raise e => Raise e
   end,
   snd (env_parse text w)).
Proof.
  unfold env_from_string, bind. rewrite <- (env_parse_result text w).
  destruct (env_parse text w) as [[ast|e] w1]; simpl; [|reflexivity].
  destruct (compile_ok text); reflexivity.
Qed.

(** A rendering, for the trace it starts from, is a computation of the
    kind of the parser. *)
Lemma render_unfold (template : string) (context : gmap string jvalue) (w : world) :
  render template context w =
  bind (for_each (template_loads (trace w) template context)
                 (fun source => bind (env_from_string source) (fun _ => ret tt)))
       (fun _ => expect_some (template_render (trace w) template context)
                             TemplateError) w.
Proof. reflexivity. Qed.

Lemma parser_like_rendering (tr : list event) (template : string)
  (context : gmap string jvalue) :
  parser_like
    (bind (for_each (template_loads tr template context)
                    (fun source => bind (env_from_string source) (fun _ => ret tt)))
          (fun _ => expect_some (template_render tr template context) TemplateError)).
Proof.
  apply parser_like_bind; [|intros _; apply parser_like_expect_some].
  apply parser_like_for_each. intros source.
  apply parser_like_bind; [apply parser_like_env_from_string|].
  intros _. apply parser_like_ret.
Qed.

Lemma render_frame (template : string) (context : gmap string jvalue) (w : world) :
  same_frame w (snd (render template context w)).
Proof. rewrite render_unfold. apply (parser_like_rendering _ _ _ w w). Qed.

Lemma env_from_string_frame (text : string) (w : world) :
  same_frame w (snd (env_from_string text w)).
Proof. apply (parser_like_env_from_string text w w). Qed.

End Parsing.

(** ** Running [prepare] and [generate] *)

Section Running.
Context `{Collaborators}.

Lemma for_each_emit {A} (f : A -> event) (l : list A) (w : world) :
  for_each l (fun x => emit (f x)) w =
  (Ok tt, {| processor := processor w; trace := trace w ++ map f l |}).
Proof.
  revert w. induction l as [|x l IH]; intros w; simpl.
  - rewrite app_nil_r. destruct w; reflexivity.
  - unfold bind, emit at 1. rewrite IH. simpl. rewrite <- app_assoc. reflexivity.
Qed.

(** [prepare] comes to its outcome. *)
Lemma prepare_run (path : string) (w : world) :
  prepare path w = prepare_outcome path w.
Proof.
  unfold prepare_outcome.
  destruct (_generate (processor w) !! path) as [ta|] eqn:Hpending.
  { unfold prepare, bind at 1, get_self. simpl.
    rewrite Hpending, decide_False by discriminate. reflexivity. }
  destruct (read_text (trace w) path) as [text|] eqn:Hread.
  2:{ unfold prepare, bind at 1, get_self. simpl.
      rewrite Hpending, decide_True by reflexivity.
      unfold bind at 1, set_self at 1. unfold bind at 1, set_self at 1.
      unfold bind at 1, read_file, bind at 1, get_trace. simpl.
      rewrite Hread. reflexivity. }
  destruct (fresh_parse text) as [r d] eqn:Hparse.
  unfold prepare, bind at 1, get_self. simpl.
  rewrite Hpending, decide_True by reflexivity.
  unfold bind at 1, set_self at 1. unfold bind at 1, set_self at 1.
  unfold bind at 1, read_file, bind at 1, get_trace. simpl.
  rewrite Hread. fold (entered path w). simpl.
  unfold bind at 1. rewrite env_parse_run by reflexivity. rewrite Hparse. simpl.
  destruct r as [ast|e]; [|reflexivity].
  unfold bind at 1, emit at 1. unfold bind at 1, emit at 1.
  unfold bind at 1, emit at 1. unfold bind at 1. rewrite for_each_emit.
  unfold bind at 1, emit at 1. unfold bind at 1, get_self. simpl.
  unfold bind at 1. rewrite for_each_emit. simpl.
  fold (template_only ast).
  unfold registration. rewrite <- !app_assoc. simpl.
  destruct (truthy (template_only ast)); simpl; reflexivity.
Qed.

(** [generate] comes to its outcome. *)
Lemma generate_run (path : string) (w : world) :
  generate path w = generate_outcome path w.
Proof.
  unfold generate_outcome.
  destruct (_generate (processor w) !! path) as [[target ast]|] eqn:Hp.
  2:{ unfold generate, bind at 1, get_self. simpl. rewrite Hp. reflexivity. }
  destruct (read_text (trace w) path) as [text|] eqn:Hread.
  2:{ unfold generate, bind at 1, get_self. simpl. rewrite Hp.
      unfold bind at 1, read_file, bind at 1, get_trace. simpl.
      rewrite Hread. reflexivity. }
  unfold generate, bind at 1, get_self. simpl. rewrite Hp.
  unfold bind at 1, read_file, bind at 1, get_trace. simpl. rewrite Hread. simpl.
  unfold bind at 1.
  pose proof (env_from_string_frame text w) as (Htr & _).
  destruct (env_from_string text w) as [[template|e] [p1 tr1]]; simpl in *; subst tr1;
    [|reflexivity].
  unfold bind at 1, get_trace. cbn [fst snd trace processor].
  unfold bind at 1. cbn [fst snd trace processor].
  unfold bind at 1, expect_true.
  destruct (makedirs_ok (trace w) (os_path_dirname target)); [|reflexivity].
  unfold ret at 1. unfold bind at 1, emit at 1. unfold bind at 1.
  cbn [fst snd trace processor]. unfold bind at 1.
  destruct (open_w_ok _ target); [|reflexivity].
  unfold ret at 1. unfold bind at 1, emit at 1. cbn [fst snd trace processor].
  rewrite <- app_assoc. cbn [app].
  unfold bind at 1.
  match goal with |- context [render template ?c ?u] =>
    pose proof (render_frame template c u) as (Htr' & _);
    destruct (render template c u) as [[rendered|e] [p3 tr3]] end;
    cbn [fst snd trace processor] in *; subst tr3; [|reflexivity].
  unfold bind at 1. cbn [fst snd trace processor]. unfold bind at 1, raise_if_any.
  destruct (fh_write_raises _ target rendered) as [e|]; [reflexivity|].
  unfold ret at 1. unfold bind, emit, set_self. reflexivity.
Qed.

(** [generate] on a path that is not pending returns at once. *)
Lemma generate_not_pending (path : string) (w : world) :
  _generate (processor w) !! path = None -> generate path w = (Ok tt, w).
Proof. intros Hp. rewrite generate_run. unfold generate_outcome. rewrite Hp. reflexivity. Qed.

(** Whatever [generate] comes to, the pending map is the one before, or the
    one before without the path when [generate] has returned. *)
Lemma generate_pending_map (path : string) (w : world) :
  _generate (processor (snd (generate path w))) =
  match fst (generate path w) with
  | Ok _ => delete path (_generate (processor w))
  | Raise _ => _generate (processor w)
  end.
Proof.
  rewrite generate_run. unfold generate_outcome.
  destruct (_generate (processor w) !! path) as [[target ast]|] eqn:Hp.
  2:{ simpl. symmetry. apply delete_id. exact Hp. }
  destruct (read_text (trace w) path) as [text|]; [|reflexivity].
  pose proof (env_from_string_frame text w) as (_ & Hgen & _).
  destruct (env_from_string text w) as [[template|e] w1];
    cbn [fst snd] in *; [|exact Hgen].
  destruct (makedirs_ok _ _); [|exact Hgen].
  destruct (open_w_ok _ _); [|exact Hgen].
  match goal with |- context [render template ?c ?u] =>
    pose proof (render_frame template c u) as (_ & Hgen' & _);
    destruct (render template c u) as [[rendered|e] w3] end;
    cbn [fst snd processor _generate] in *; [|congruence].
  destruct (fh_write_raises _ target rendered);
    cbn [fst snd processor with_generate _generate]; congruence.
Qed.

End Running.

(** ** Strings and their ends *)

Lemma length_append (s t : string) :
  String.length (s +:+ t) = String.length s + String.length t.
Proof. induction s as [|a s IH]; simpl; [reflexivity|]. rewrite IH. reflexivity. Qed.

Lemma substring_whole (s : string) : String.substring 0 (String.length s) s = s.
Proof. induction s as [|a s IH]; simpl; [reflexivity|]. rewrite IH. reflexivity. Qed.

Lemma substring_after (s t : string) :
  String.substring (String.length s) (String.length t) (s +:+ t) = t.
Proof. induction s as [|a s IH]; simpl; [apply substring_whole | exact IH]. Qed.

Lemma substring_split (s : string) (k : nat) :
  k <= String.length s ->
  s = String.substring 0 k s +:+ String.substring k (String.length s - k) s.
Proof.
  revert k. induction s as [|a s IH]; intros k Hk; simpl in *.
  - destruct k; [reflexivity | lia].
  - destruct k as [|k]; simpl.
    + rewrite substring_whole. reflexivity.
    + change (String a s = String a (String.substring 0 k s
                               +:+ String.substring k (String.length s - k) s)).
      f_equal. apply IH. lia.
Qed.

Lemma endswith_spec (s suffix : string) :
  endswith s suffix = true <-> exists stem, s = stem +:+ suffix.
Proof.
  unfold endswith. rewrite andb_true_iff, Nat.leb_le, String.eqb_eq. split.
  - intros [Hle Hsub].
    exists (String.substring 0 (String.length s - String.length suffix) s).
    pose proof (substring_split s (String.length s - String.length suffix)) as Hs.
    replace (String.length s - (String.length s - String.length suffix))
      with (String.length suffix) in Hs by lia.
    rewrite Hsub in Hs. apply Hs. lia.
  - intros [stem ->]. rewrite length_append. split; [lia|].
    replace (String.length stem + String.length suffix - String.length suffix)
      with (String.length stem) by lia.
    apply substring_after.
Qed.

(** ** More on assignments *)

Lemma last_assignment_exists (l : list (string * pyconst)) (n : string) :
  n ∈ l.*1 -> exists c, last_assignment l n c.
Proof.
  induction l as [|[k v] l IH] using rev_ind; intros Hin.
  - apply elem_of_nil in Hin. destruct Hin.
  - destruct (decide (k = n)) as [->|Hkn].
    + exists v, l, []. split; [reflexivity | apply not_elem_of_nil].
    + rewrite fmap_app in Hin. apply elem_of_app in Hin as [Hin|Hin].
      * destruct (IH Hin) as (c & l1 & l2 & -> & Hl2).
        exists c, l1, (l2 ++ [(k, v)]). split; [rewrite <- app_assoc; reflexivity|].
        rewrite fmap_app. intros [H'|H']%elem_of_app; [exact (Hl2 H')|].
        simpl in H'. apply list_elem_of_singleton in H'. congruence.
      * simpl in Hin. apply list_elem_of_singleton in Hin. congruence.
Qed.

Lemma last_assignment_elem (l : list (string * pyconst)) (n : string) (c : pyconst) :
  last_assignment l n c -> (n, c) ∈ l.
Proof.
  intros (l1 & l2 & -> & _). apply elem_of_app. right. apply list_elem_of_here.
Qed.

(** Assignments after a truthy one that are all truthy leave a truthy
    value. *)
Lemma assign_pairs_truthy (l : list (string * pyconst)) (m : gmap string pyconst)
  (n : string) :
  (exists c, m !! n = Some c /\ truthy c = true) ->
  (forall c, (n, c) ∈ l -> truthy c = true) ->
  exists c, fold_left assign_pair l m !! n = Some c /\ truthy c = true.
Proof.
  revert m. induction l as [|[k v] l IH]; intros m Hm Hl; simpl; [exact Hm|].
  apply IH.
  - unfold assign_pair. simpl. destruct (decide (k = n)) as [->|Hkn].
    + exists v. rewrite lookup_insert_eq. split; [reflexivity|].
      apply Hl, list_elem_of_here.
    + rewrite lookup_insert_ne by exact Hkn. exact Hm.
  - intros c Hc. apply Hl. apply list_elem_of_further, Hc.
Qed.

(** * The claims *)

(** C10: [can_process(path)] returns true if and only if the path ends with
    the suffix ['.html'], that is, is some string followed by ['.html']. *)
Theorem can_process_iff_html_suffix (path : string) :
  can_process path = true <-> exists stem, path = stem +:+ ".html".
Proof. unfold can_process. apply endswith_spec. Qed.

(** C2: the mapping returned by [_get_const_vars] has the key [n] with the
    value [c] exactly when, among the assignment nodes of the AST whose
    target is a simple name and whose expression is a constant, taken in
    traversal order, the last one whose target is [n] assigns [c]; a key is
    present exactly when there is such an assignment to it. *)
Theorem const_vars_last_assignment (ast : node) (n : string) :
  (forall c, _get_const_vars ast !! n = Some c <->
             last_assignment (const_assignments ast) n c) /\
  (is_Some (_get_const_vars ast !! n) <->
   exists c, (n, c) ∈ const_assignments ast).
Proof.
  assert (Hlast : forall c, _get_const_vars ast !! n = Some c <->
                            last_assignment (const_assignments ast) n c).
  { intros c. rewrite get_const_vars_fold, assign_pairs_lookup. split.
    - intros [Hl|[_ Hempty]]; [exact Hl|]. rewrite lookup_empty in Hempty. discriminate.
    - intros Hl. left. exact Hl. }
  split; [exact Hlast|]. split.
  - intros [c Hc]. exists c. apply last_assignment_elem, Hlast, Hc.
  - intros [c Hc].
    destruct (last_assignment_exists (const_assignments ast) n) as [c' Hc'].
    + apply list_elem_of_fmap. exists (n, c). split; [reflexivity | exact Hc].
    + exists c'. apply Hlast, Hc'.
Qed.

Section Claims.
Context `{Collaborators}.

Lemma omap_map_None {A B C} (f : A -> B) (g : B -> option C) (l : list A) :
  (forall x, g (f x) = None) -> omap g (map f l) = [].
Proof.
  intros Hg. induction l as [|x l IH]; [reflexivity|].
  cbn. rewrite Hg. exact IH.
Qed.

Lemma omap_map_Some {A B} (f : A -> B) (g : B -> option A) (l : list A) :
  (forall x, g (f x) = Some x) -> omap g (map f l) = l.
Proof.
  intros Hg. induction l as [|x l IH]; [reflexivity|].
  cbn. rewrite Hg. f_equal. exact IH.
Qed.

Lemma added_dependencies_registration (path : string) (ast : node)
  (d : list (string * pyconst)) :
  added_dependencies path (registration path ast d) = _get_context_requests ast.
Proof.
  unfold registration, added_dependencies. cbn. rewrite !omap_app. cbn.
  rewrite (omap_map_None (fun nv : string * pyconst => _)) by reflexivity.
  rewrite app_nil_r. apply omap_map_Some.
  intros [a b]. cbn. rewrite decide_True by reflexivity. reflexivity.
Qed.

Lemma contexts_set_registration (path : string) (ast : node)
  (d : list (string * pyconst)) :
  contexts_set path (registration path ast d) = d.
Proof.
  unfold registration, contexts_set. cbn. rewrite !omap_app. cbn.
  rewrite (omap_map_None (fun nv : pyconst * pyconst => _)) by reflexivity.
  cbn. apply omap_map_Some.
  intros [a b]. cbn. rewrite decide_True by reflexivity. reflexivity.
Qed.

(** Every call in a registration is a call for the path. *)
Lemma registration_for_path (path : string) (ast : node)
  (d : list (string * pyconst)) (e : event) :
  e ∈ registration path ast d ->
  match e with
  | sources_set_targets p _ | sources_set_dependencies p _
  | contexts_clear_dependencies p | contexts_add_dependency p _ _
  | contexts_remove_context p | contexts_set_context p _ _ => p = path
  | _ => False
  end.
Proof.
  unfold registration. rewrite !elem_of_app, !list_elem_of_fmap.
  intros [He|[(nv & -> & _)|[He|(nv & -> & _)]]]; try reflexivity.
  - repeat (apply elem_of_cons in He as [->|He]; [reflexivity|]).
    apply elem_of_nil in He. destruct He.
  - apply list_elem_of_singleton in He as ->. reflexivity.
Qed.

(** A path that is not pending, whose text reads and parses, is prepared
    without an exception, with the outcome spelled out. *)
Lemma prepare_parsed (path : string) (w : world) (text : string) (ast : node)
  (d : list (string * pyconst)) :
  _generate (processor w) !! path = None ->
  read_text (trace w) path = Some text ->
  fresh_parse text = (Ok ast, d) ->
  prepare path w =
  (Ok tt,
   {| processor :=
        {| _generate :=
             if truthy (template_only ast) then _generate (processor w)
             else <[path := (target_path path, ast)]> (_generate (processor w));
           _set_contexts := d;
           current_path := Some path |};
      trace := trace w ++ registration path ast d |}).
Proof.
  intros Hp Hread Hparse. rewrite prepare_run. unfold prepare_outcome.
  rewrite Hp, Hread, Hparse. reflexivity.
Qed.

(** C1: the context requests extracted from an AST are the pairs of values
    of the two arguments of the call nodes whose callee is a simple name and
    which have exactly two positional arguments, both constant, in traversal
    order; and when [prepare] parses the file of a path to that AST, the
    context dependencies it adds are these pairs, in this order, all for
    that path. *)
Theorem context_requests_extracted_and_registered (ast : node) :
  _get_context_requests ast = spec_context_requests ast /\
  forall path w text d,
    _generate (processor w) !! path = None ->
    read_text (trace w) path = Some text ->
    fresh_parse text = (Ok ast, d) ->
    exists w' new,
      prepare path w = (Ok tt, w') /\
      trace w' = trace w ++ new /\
      added_dependencies path new = spec_context_requests ast /\
      forall q name value,
        contexts_add_dependency q name value ∈ new -> q = path.
Proof.
  split; [apply get_context_requests_spec|].
  intros path w text d Hp Hread Hparse.
  eexists _, (registration path ast d). split; [|split; [|split]].
  - eapply prepare_parsed; eassumption.
  - reflexivity.
  - rewrite added_dependencies_registration. apply get_context_requests_spec.
  - intros q name value Hin. apply registration_for_path in Hin. exact Hin.
Qed.

(** C6: [prepare] of a path that is not pending, whose file reads and
    parses, calls the host in this order: [set_targets] with the single
    target, [set_dependencies] with the templates the AST refers to,
    [clear_dependencies], one [add_dependency] per extracted context
    request, [remove_context], one [set_context] per pair collected while
    parsing. *)
Theorem prepare_registration_order (path : string) (w : world) (text : string)
  (ast : node) (d : list (string * pyconst)) :
  _generate (processor w) !! path = None ->
  read_text (trace w) path = Some text ->
  fresh_parse text = (Ok ast, d) ->
  exists w',
    prepare path w = (Ok tt, w') /\
    trace w' =
      trace w
      ++ [sources_set_targets path [target_path path]]
      ++ [sources_set_dependencies path
            (map app_source_path (find_referenced_templates ast))]
      ++ [contexts_clear_dependencies path]
      ++ map (fun nv => contexts_add_dependency path nv.1 nv.2)
             (_get_context_requests ast)
      ++ [contexts_remove_context path]
      ++ map (fun nv => contexts_set_context path nv.1 nv.2) d.
Proof.
  intros Hp Hread Hparse. eexists. split.
  - eapply prepare_parsed; eassumption.
  - reflexivity.
Qed.

(** C3, amended: [prepare] of a path that is already pending does nothing;
    [prepare] of a path that is not pending, whose file reads and parses,
    registers targets, dependencies, context dependencies and set contexts
    from this parse, holds the pairs of this parse alone, and leaves the path
    pending with the target and the AST unless the template is
    template-only. *)
Theorem prepare_rebuilds_unless_pending (path : string) (w : world) :
  (forall ta, _generate (processor w) !! path = Some ta ->
              prepare path w = (Ok tt, w)) /\
  (forall text ast d,
      _generate (processor w) !! path = None ->
      read_text (trace w) path = Some text ->
      fresh_parse text = (Ok ast, d) ->
      exists w',
        prepare path w = (Ok tt, w') /\
        trace w' = trace w ++ registration path ast d /\
        _set_contexts (processor w') = d /\
        _generate (processor w') !! path =
          if truthy (template_only ast) then None
          else Some (target_path path, ast)).
Proof.
  split.
  - intros ta Hp. rewrite prepare_run. unfold prepare_outcome. rewrite Hp. reflexivity.
  - intros text ast d Hp Hread Hparse. eexists. split; [|split; [|split]].
    + eapply prepare_parsed; eassumption.
    + reflexivity.
    + reflexivity.
    + simpl. destruct (truthy (template_only ast)); [exact Hp|].
      apply lookup_insert_eq.
Qed.

Lemma dict_get_set (d : list (string * pyconst)) (k : string) (v : pyconst) :
  dict_get (dict_set d k v) k = Some v.
Proof.
  induction d as [|[k' v'] d IH]; simpl.
  - rewrite decide_True by reflexivity. reflexivity.
  - destruct (decide (k' = k)) as [->|Hne]; simpl.
    + rewrite decide_True by reflexivity. reflexivity.
    + rewrite decide_False by exact Hne. exact IH.
Qed.

(** C4, amended: the processor holds the collected set-context pairs in one
    mapping keyed by the variable name, whatever the file; a [prepare] that
    parses a file leaves in it the pairs of that file alone, whatever it held
    before, and hands exactly these pairs to the host, under the path of the
    file. *)
Theorem set_contexts_one_store_per_parse (path : string) (w : world) :
  (forall name value,
      dict_get (_set_contexts (processor (snd (add_set_context name value w)))) name
      = Some value) /\
  (forall text ast d,
      _generate (processor w) !! path = None ->
      read_text (trace w) path = Some text ->
      fresh_parse text = (Ok ast, d) ->
      exists w' new,
        prepare path w = (Ok tt, w') /\
        _set_contexts (processor w') = d /\
        trace w' = trace w ++ new /\
        contexts_set path new = d /\
        forall q name value, contexts_set_context q name value ∈ new -> q = path).
Proof.
  split.
  - intros name value. simpl. apply dict_get_set.
  - intros text ast d Hp Hread Hparse.
    eexists _, (registration path ast d). split; [|split; [|split; [|split]]].
    + eapply prepare_parsed; eassumption.
    + reflexivity.
    + reflexivity.
    + apply contexts_set_registration.
    + intros q name value Hin. apply registration_for_path in Hin. exact Hin.
Qed.

(** C5: the pending map is keyed by the path; [prepare] changes it at most
    at its path, where it at most puts the pair of the target path and the
    parsed AST of a path that was not pending; and after a [generate] that
    returns, the path is not pending and the other entries are as before. *)
Theorem pending_map_transient (path : string) (w : world) :
  (forall q, q <> path ->
     _generate (processor (snd (prepare path w))) !! q = _generate (processor w) !! q) /\
  (_generate (processor (snd (prepare path w))) !! path = _generate (processor w) !! path \/
   exists text ast,
     _generate (processor w) !! path = None /\
     read_text (trace w) path = Some text /\
     fst (fresh_parse text) = Ok ast /\
     _generate (processor (snd (prepare path w))) !! path
     = Some (target_path path, ast)) /\
  (forall w', generate path w = (Ok tt, w') ->
     _generate (processor w') !! path = None /\
     forall q, q <> path ->
       _generate (processor w') !! q = _generate (processor w) !! q).
Proof.
  split; [|split].
  - intros q Hq. rewrite prepare_run. unfold prepare_outcome.
    destruct (_generate (processor w) !! path); [reflexivity|].
    destruct (read_text (trace w) path) as [text|]; [|reflexivity].
    destruct (fresh_parse text) as [[ast|e] d]; [|reflexivity].
    simpl. destruct (truthy (template_only ast)); [reflexivity|].
    apply lookup_insert_ne. congruence.
  - rewrite prepare_run. unfold prepare_outcome.
    destruct (_generate (processor w) !! path) eqn:Hp; [left; simpl; exact Hp|].
    destruct (read_text (trace w) path) as [text|] eqn:Hread;
      [|left; simpl; exact Hp].
    destruct (fresh_parse text) as [[ast|e] d] eqn:Hparse;
      [|left; simpl; exact Hp].
    simpl. destruct (truthy (template_only ast)); [left; simpl; exact Hp|].
    right. exists text, ast. split; [reflexivity|]. split; [reflexivity|]. split.
    + change (fst (fresh_parse text) = Ok ast). rewrite Hparse. reflexivity.
    + apply lookup_insert_eq.
  - intros w' Hgen. pose proof (generate_pending_map path w) as Hmap.
    rewrite Hgen in Hmap. simpl in Hmap. rewrite Hmap. split.
    + apply lookup_delete_eq.
    + intros q Hq. apply lookup_delete_ne. congruence.
Qed.



Lemma written_app (l1 l2 : list event) : written (l1 ++ l2) = written l1 ++ written l2.
Proof. unfold written. apply omap_app. Qed.

(** Loaded templates that parse and compile are loaded without an
    exception, and a rendering that loads such templates only returns what
    the renderer gives. *)
Lemma loads_return (l : list string) (w : world) :
  Forall (fun source => (exists a, fst (fresh_parse source) = Ok a) /\
                        compile_ok source = true) l ->
  fst (for_each l (fun source => bind (env_from_string source) (fun _ => ret tt)) w)
  = Ok tt.
Proof.
  intros Hl. revert w. induction Hl as [|source l [[a Ha] Hc] _ IH]; intros w;
    [reflexivity|].
  simpl. unfold bind at 1. unfold bind at 1. rewrite env_from_string_run, Ha, Hc.
  apply IH.
Qed.



(** A template whose last constant assignment to [template_only] is
    truthy is template-only for [prepare]. *)
Lemma template_only_truthy (ast : node) (l1 l2 : list (string * pyconst))
  (c : pyconst) :
  const_assignments ast = l1 ++ ("template_only", c) :: l2 ->
  truthy c = true ->
  (forall c', ("template_only", c') ∈ l2 -> truthy c' = true) ->
  truthy (template_only ast) = true.
Proof.
  intros Hl Hc Hl2. unfold template_only.
  rewrite get_const_vars_fold, Hl, fold_left_app. simpl.
  destruct (assign_pairs_truthy l2
              (assign_pair (fold_left assign_pair l1 ∅) ("template_only", c))
              "template_only") as (c' & -> & Hc').
  - exists c. split; [apply lookup_insert_eq | exact Hc].
  - exact Hl2.
  - exact Hc'.
Qed.

(** C8: when the AST that [prepare] parses has a constant assignment of a
    truthy value to [template_only] and every later constant assignment to
    that name is truthy as well, [prepare] makes its registration with the
    host and leaves the pending map as it was, with the path not pending; a
    [generate] of the path then returns at once and changes nothing, so it
    writes no file. *)
Theorem template_only_registered_not_pending (path : string) (w : world)
  (text : string) (ast : node) (d l1 l2 : list (string * pyconst)) (c : pyconst) :
  _generate (processor w) !! path = None ->
  read_text (trace w) path = Some text ->
  fresh_parse text = (Ok ast, d) ->
  const_assignments ast = l1 ++ ("template_only", c) :: l2 ->
  truthy c = true ->
  (forall c', ("template_only", c') ∈ l2 -> truthy c' = true) ->
  exists w',
    prepare path w = (Ok tt, w') /\
    trace w' = trace w ++ registration path ast d /\
    _generate (processor w') = _generate (processor w) /\
    _generate (processor w') !! path = None /\
    generate path w' = (Ok tt, w').
Proof.
  intros Hp Hread Hparse Hl Hc Hl2.
  pose proof (template_only_truthy ast l1 l2 c Hl Hc Hl2) as Honly.
  eexists. split; [eapply prepare_parsed; eassumption|].
  rewrite Honly. simpl. repeat split; try exact Hp.
  apply generate_not_pending. exact Hp.
Qed.

(** C9: [generate] of a path that is not pending returns and leaves the
    world as it is: processor, host calls and files; so a [generate] that
    follows at once a [generate] of the same path that has returned changes
    nothing. *)
Theorem generate_idle_when_not_pending (path : string) (w : world) :
  (_generate (processor w) !! path = None -> generate path w = (Ok tt, w)) /\
  (forall w1, generate path w = (Ok tt, w1) -> generate path w1 = (Ok tt, w1)).
Proof.
  split; [apply generate_not_pending|].
  intros w1 Hgen. apply generate_not_pending.
  pose proof (generate_pending_map path w) as Hmap.
  rewrite Hgen in Hmap. simpl in Hmap. rewrite Hmap. apply lookup_delete_eq.
Qed.

End Claims.

(** * The claims on the small site *)

Import Site.

(** C3 as stated fails: the index page is pending, its file reads and
    parses, and a second [prepare] of it calls the host not once. *)
Lemma pending_prepare_registers_nothing : ~ every_prepare_registers.
Proof.
  intros Hclaim.
  destruct (Hclaim "/src/index.html" index_pending text_index ast_index
              [("title", PyStr "Home")] eq_refl eq_refl) as (w' & Hprepare & Htrace).
  assert (Hsame : prepare "/src/index.html" index_pending = (Ok tt, index_pending))
    by reflexivity.
  rewrite Hsame in Hprepare. injection Hprepare as <-.
  apply (f_equal length) in Htrace. vm_compute in Htrace. discriminate.
Qed.

(** C4 as stated fails: after the index page, the post is prepared, and the
    title collected for the index page is no longer held: the title of the
    post has taken its place. *)
Lemma post_title_overwrites_index_title : ~ set_contexts_kept_per_path.
Proof.
  intros Hclaim.
  specialize (Hclaim "/src/index.html" "/src/post.html" start index_pending
                both_pending ltac:(discriminate) eq_refl eq_refl
                "title" (PyStr "Home") eq_refl).
  vm_compute in Hclaim. discriminate.
Qed.


(** C1 on the index page: its one request is registered. *)
Lemma context_requests_on_index :
  _generate (processor start) !! "/src/index.html" = None /\
  read_text (trace start) "/src/index.html" = Some text_index /\
  fresh_parse text_index = (Ok ast_index, [("title", PyStr "Home")]) /\
  _get_context_requests ast_index = [(PyStr "kind", PyStr "post")] /\
  exists w' new,
    prepare "/src/index.html" start = (Ok tt, w') /\
    trace w' = trace start ++ new /\
    added_dependencies "/src/index.html" new = spec_context_requests ast_index /\
    forall q name value,
      contexts_add_dependency q name value ∈ new -> q = "/src/index.html".
Proof.
  split; [reflexivity|]. split; [reflexivity|]. split; [reflexivity|].
  split; [reflexivity|].
  apply (proj2 (context_requests_extracted_and_registered ast_index)
           "/src/index.html" start text_index [("title", PyStr "Home")]);
    reflexivity.
Defined.

(** C6 on the index page. *)
Lemma registration_order_on_index :
  _generate (processor start) !! "/src/index.html" = None /\
  read_text (trace start) "/src/index.html" = Some text_index /\
  fresh_parse text_index = (Ok ast_index, [("title", PyStr "Home")]) /\
  exists w',
    prepare "/src/index.html" start = (Ok tt, w') /\
    trace w' =
      trace start
      ++ [sources_set_targets "/src/index.html" [target_path "/src/index.html"]]
      ++ [sources_set_dependencies "/src/index.html"
            (map app_source_path (find_referenced_templates ast_index))]
      ++ [contexts_clear_dependencies "/src/index.html"]
      ++ map (fun nv => contexts_add_dependency "/src/index.html" nv.1 nv.2)
             (_get_context_requests ast_index)
      ++ [contexts_remove_context "/src/index.html"]
      ++ map (fun nv => contexts_set_context "/src/index.html" nv.1 nv.2)
             [("title", PyStr "Home")].
Proof.
  split; [reflexivity|]. split; [reflexivity|]. split; [reflexivity|].
  apply (prepare_registration_order "/src/index.html" start text_index ast_index
           [("title", PyStr "Home")]); reflexivity.
Defined.

(** C3, amended, on the site: the pending index page is left alone, the
    post is parsed and registered. *)
Lemma prepare_rebuilds_on_site :
  _generate (processor index_pending) !! "/src/index.html"
  = Some ("/build/src/index.html", ast_index) /\
  prepare "/src/index.html" index_pending = (Ok tt, index_pending) /\
  _generate (processor index_pending) !! "/src/post.html" = None /\
  read_text (trace index_pending) "/src/post.html" = Some text_post /\
  fresh_parse text_post = (Ok ast_post, [("title", PyStr "Post")]) /\
  exists w',
    prepare "/src/post.html" index_pending = (Ok tt, w') /\
    trace w' = trace index_pending
               ++ registration "/src/post.html" ast_post [("title", PyStr "Post")] /\
    _set_contexts (processor w') = [("title", PyStr "Post")] /\
    _generate (processor w') !! "/src/post.html" =
      if truthy (template_only ast_post) then None
      else Some (target_path "/src/post.html", ast_post).
Proof.
  split; [reflexivity|]. split.
  { apply (proj1 (prepare_rebuilds_unless_pending "/src/index.html" index_pending)
             ("/build/src/index.html", ast_index)). reflexivity. }
  split; [reflexivity|]. split; [reflexivity|]. split; [reflexivity|].
  apply (proj2 (prepare_rebuilds_unless_pending "/src/post.html" index_pending)
           text_post ast_post [("title", PyStr "Post")]); reflexivity.
Defined.

(** C4, amended, on the site: the processor holds the title of the index
    page when the post is prepared, and the title of the post after. *)
Lemma set_contexts_on_site :
  _set_contexts (processor index_pending) = [("title", PyStr "Home")] /\
  _generate (processor index_pending) !! "/src/post.html" = None /\
  read_text (trace index_pending) "/src/post.html" = Some text_post /\
  fresh_parse text_post = (Ok ast_post, [("title", PyStr "Post")]) /\
  exists w' new,
    prepare "/src/post.html" index_pending = (Ok tt, w') /\
    _set_contexts (processor w') = [("title", PyStr "Post")] /\
    trace w' = trace index_pending ++ new /\
    contexts_set "/src/post.html" new = [("title", PyStr "Post")] /\
    forall q name value,
      contexts_set_context q name value ∈ new -> q = "/src/post.html".
Proof.
  split; [reflexivity|]. split; [reflexivity|]. split; [reflexivity|].
  split; [reflexivity|].
  apply (proj2 (set_contexts_one_store_per_parse "/src/post.html" index_pending)
           text_post ast_post [("title", PyStr "Post")]); reflexivity.
Defined.

(** C5 on the site: the index page is generated and is pending no more, the
    post still is. *)
Lemma pending_map_on_site :
  generate "/src/index.html" both_pending
  = (Ok tt, snd (generate "/src/index.html" both_pending)) /\
  _generate (processor (snd (generate "/src/index.html" both_pending)))
    !! "/src/index.html" = None /\
  _generate (processor (snd (generate "/src/index.html" both_pending)))
    !! "/src/post.html" = Some ("/build/src/post.html", ast_post).
Proof.
  assert (Hgen : generate "/src/index.html" both_pending
                 = (Ok tt, snd (generate "/src/index.html" both_pending)))
    by reflexivity.
  split; [exact Hgen|].
  destruct (proj2 (proj2 (pending_map_transient "/src/index.html" both_pending))
              (snd (generate "/src/index.html" both_pending)) Hgen)
    as [Hgone Hothers].
  split; [exact Hgone|].
  rewrite (Hothers "/src/post.html") by discriminate. reflexivity.
Defined.


(** C8 on the base template. *)
Lemma template_only_on_base :
  _generate (processor start) !! "/src/base.html" = None /\
  read_text (trace start) "/src/base.html" = Some text_base /\
  fresh_parse text_base = (Ok ast_base, []) /\
  const_assignments ast_base = [] ++ ("template_only", PyBool true) :: [] /\
  truthy (PyBool true) = true /\
  exists w',
    prepare "/src/base.html" start = (Ok tt, w') /\
    trace w' = trace start ++ registration "/src/base.html" ast_base [] /\
    _generate (processor w') = _generate (processor start) /\
    _generate (processor w') !! "/src/base.html" = None /\
    generate "/src/base.html" w' = (Ok tt, w').
Proof.
  split; [reflexivity|]. split; [reflexivity|]. split; [reflexivity|].
  split; [reflexivity|]. split; [reflexivity|].
  apply (template_only_registered_not_pending "/src/base.html" start text_base
           ast_base [] [] [] (PyBool true)); try reflexivity.
  intros c' Hc'. apply elem_of_nil in Hc'. destruct Hc'.
Defined.

(** C9 on the site: nothing is pending at the start, and the index page is
    generated once. *)
Lemma generate_idle_on_site :
  _generate (processor start) !! "/src/index.html" = None /\
  generate "/src/index.html" start = (Ok tt, start) /\
  generate "/src/index.html" index_pending
  = (Ok tt, snd (generate "/src/index.html" index_pending)) /\
  generate "/src/index.html" (snd (generate "/src/index.html" index_pending))
  = (Ok tt, snd (generate "/src/index.html" index_pending)).
Proof.
  split; [reflexivity|]. split.
  { apply (proj1 (generate_idle_when_not_pending "/src/index.html" start)).
    reflexivity. }
  split; [reflexivity|].
  apply (proj2 (generate_idle_when_not_pending "/src/index.html" index_pending)).
  reflexivity.
Defined.

(** ** Runs of the scans and of [can_process] *)

Example can_process_examples :
  can_process "/src/index.html" = true /\ can_process "/src/style.css" = false /\
  can_process ".html" = true /\ can_process "html" = false.
Proof. repeat split. Qed.

Example const_vars_last_wins :
  let ast :=
    Other "Template"
      [Assign (Name "x" "store") (Const (PyInt 1));
       Other "If" [Const (PyBool true); Assign (Name "x" "store") (Const (PyInt 2))];
       Assign (Name "y" "store") (Name "x" "load")] in
  _get_const_vars ast !! "x" = Some (PyInt 2) /\
  _get_const_vars ast !! "y" = None /\
  const_assignments ast = [("x", PyInt 1); ("x", PyInt 2)].
Proof. repeat split. Qed.

Example context_requests_examples :
  let call args kwargs := Call (Name "getcontexts" "load") args kwargs None None in
  _get_context_requests
    (Other "Template"
       [Other "Output" [call [Const (PyStr "a"); Const (PyInt 1)] []];
        Other "Output" [call [Const (PyStr "b")] []];
        Other "Output" [call [Const (PyStr "c"); Name "v" "load"] []];
        Other "Output"
          [call [Const (PyStr "d"); Const PyNone] [Other "Keyword" [Const (PyInt 0)]]];
        Other "Output"
          [Call (Other "Getattr" [Name "o" "load"])
             [Const (PyStr "e"); Const (PyInt 2)] [] None None]])
  = [(PyStr "a", PyInt 1); (PyStr "d", PyNone)].
Proof. reflexivity. Qed.

(** A [setcontext] tag whose value is not a constant stops the parse with
    nothing collected; one without a value contributes no node. *)
Example setcontext_of_a_name_raises :
  subparse
    (PExt [Token 1 "name" "setcontext"; Token 1 "name" "title";
           Token 1 "assign" "="; Token 1 "name" "other";
           Token 1 "block_end" "%}"]) start
  = (Raise AttributeError, start) /\
  subparse
    (PExt [Token 1 "name" "setcontext"; Token 1 "name" "title";
           Token 1 "block_end" "%}"]) start
  = (Ok [], start).
Proof. split; reflexivity. Qed.

(** * Further properties of the code *)

(** ** The scans *)

Lemma flat_map_map {A B C} (f : A -> B) (g : B -> list C) (l : list A) :
  flat_map g (map f l) = flat_map (fun x => g (f x)) l.
Proof. induction l as [|x l IH]; simpl; [reflexivity|]. rewrite IH. reflexivity. Qed.

Lemma map_flat_map {A B C} (f : A -> list B) (g : B -> C) (l : list A) :
  map g (flat_map f l) = flat_map (fun x => map g (f x)) l.
Proof.
  induction l as [|x l IH]; simpl; [reflexivity|]. rewrite map_app, IH. reflexivity.
Qed.

(** Renaming commutes with the traversal. *)
Lemma walk_rename (r : string -> string) (n : node) :
  walk (rename r n) = map (rename r) (walk n).
Proof.
  assert (Hchildren : forall l,
    Forall (fun c => walk (rename r c) = map (rename r) (walk c)) l ->
    flat_map walk (map (rename r) l) = map (rename r) (flat_map walk l)).
  { intros l Hl. rewrite flat_map_map, map_flat_map.
    apply (flat_map_Forall_ext (fun _ => True)). exact Hl. }
  induction n as [name ctx|value|target expr IHt IHe
                 |callee args kwargs da dk IHc IHa IHk IHda IHdk
                 |class children IHch] using node_children_ind; simpl.
  - reflexivity.
  - reflexivity.
  - rewrite IHt, IHe, map_app. reflexivity.
  - rewrite IHc, (Hchildren args IHa), (Hchildren kwargs IHk), !map_app.
    destruct da as [d|], dk as [d'|]; simpl in *;
      try (apply Forall_inv in IHda; rewrite IHda);
      try (apply Forall_inv in IHdk; rewrite IHdk);
      reflexivity.
  - rewrite (Hchildren children IHch). reflexivity.
Qed.

Lemma descendants_rename (r : string -> string) (n : node) :
  descendants (rename r n) = map (rename r) (descendants n).
Proof. unfold descendants. rewrite walk_rename. destruct (walk n); reflexivity. Qed.

Lemma is_context_request_rename (r : string -> string) (n : node) :
  is_context_request (rename r n) = is_context_request n.
Proof.
  destruct n as [| | |callee args kwargs da dk|]; simpl; try reflexivity.
  rewrite length_map. f_equal; [f_equal; destruct callee; reflexivity|].
  induction args as [|a args IH]; simpl; [reflexivity|].
  rewrite IH. f_equal. destruct a; reflexivity.
Qed.

Lemma request_pair_rename (r : string -> string) (n : node) :
  request_pair (rename r n) = request_pair n.
Proof.
  destruct n as [| | |callee args kwargs da dk|]; simpl; try reflexivity.
  destruct args as [|a0 [|a1 args]]; simpl; try reflexivity.
  - destruct a0; reflexivity.
  - destruct a0; try reflexivity; destruct a1; reflexivity.
Qed.

(** X1: the scan for context requests never looks at a name: with other
    names in all the [Name] nodes of the AST, and so with callees of any
    name, the extracted requests are the same. *)
Theorem context_requests_whatever_the_names (r : string -> string) (ast : node) :
  _get_context_requests (rename r ast) = _get_context_requests ast.
Proof.
  rewrite !get_context_requests_spec. unfold spec_context_requests.
  rewrite descendants_rename.
  induction (descendants ast) as [|n l IH]; [reflexivity|].
  rewrite map_cons, !filter_cons, is_context_request_rename.
  destruct (decide (is_context_request n = true)) as [Hn|Hn]; [|exact IH].
  cbn. rewrite request_pair_rename, IH. reflexivity.
Qed.

(** X2: the requests of a body are the requests of its first statements
    followed by the requests of the statements after them: the scan of the
    body is the scan of its parts, in order. *)
Theorem context_requests_of_a_body (class : string) (first rest : list node) :
  _get_context_requests (Other class (first ++ rest)) =
  _get_context_requests (Other class first) ++ _get_context_requests (Other class rest).
Proof.
  rewrite !get_context_requests_spec. unfold spec_context_requests.
  rewrite !descendants_unfold. simpl.
  rewrite flat_map_app, filter_app, omap_app. reflexivity.
Qed.

(** Assigning pairs on a mapping: what the pairs assign on their own comes
    first, the mapping decides the rest. *)
Lemma assign_pairs_over (l : list (string * pyconst)) (m : gmap string pyconst)
  (n : string) :
  fold_left assign_pair l m !! n =
  match fold_left assign_pair l ∅ !! n with
  | Some c => Some c
  | None => m !! n
  end.
Proof.
  induction l as [|[k v] l IH] using rev_ind.
  - simpl. rewrite lookup_empty. reflexivity.
  - rewrite !fold_left_app. simpl. unfold assign_pair at 1 3. simpl.
    destruct (decide (k = n)) as [->|Hkn].
    + rewrite !lookup_insert_eq. reflexivity.
    + rewrite !lookup_insert_ne by exact Hkn. exact IH.
Qed.

(** X3: in the constant variables of a body, a statement overrides the
    statements before it: a name has the value the later statements give it,
    and the value of the earlier ones when the later ones give it none. *)
Theorem const_vars_of_a_body (class : string) (first rest : list node) (n : string) :
  _get_const_vars (Other class (first ++ rest)) !! n =
  match _get_const_vars (Other class rest) !! n with
  | Some c => Some c
  | None => _get_const_vars (Other class first) !! n
  end.
Proof.
  rewrite !get_const_vars_fold. unfold const_assignments.
  rewrite !descendants_unfold. simpl.
  rewrite flat_map_app, omap_app, fold_left_app. apply assign_pairs_over.
Qed.

(** ** [can_process] looks at the end of the path only *)

Lemma substring_skip (s t : string) (k m : nat) :
  String.substring (String.length s + k) m (s +:+ t) = String.substring k m t.
Proof. induction s as [|a s IH]; simpl; [reflexivity | exact IH]. Qed.

(** X4: whatever is put before a path of at least five characters,
    [can_process] answers the same: a directory does not change whether a
    file is processed. *)
Theorem can_process_whatever_the_directory (dir name : string) :
  5 <= String.length name ->
  can_process (dir +:+ name) = can_process name.
Proof.
  intros Hlen. unfold can_process, endswith. rewrite length_append.
  change (String.length ".html") with 5.
  replace (String.length dir + String.length name - 5)
    with (String.length dir + (String.length name - 5)) by lia.
  rewrite substring_skip.
  destruct (Nat.leb_spec 5 (String.length name)) as [_|Hlt]; [|lia].
  destruct (Nat.leb_spec 5 (String.length dir + String.length name)) as [_|Hlt];
    [reflexivity | lia].
Qed.

(** ** The [setcontext] tag and what a parse collects *)

Lemma dict_get_set_ne (d : list (string * pyconst)) (k k' : string) (v : pyconst) :
  k <> k' -> dict_get (dict_set d k v) k' = dict_get d k'.
Proof.
  intros Hne. induction d as [|[k0 v0] d IH]; simpl.
  - rewrite decide_False by exact Hne. reflexivity.
  - destruct (decide (k0 = k)) as [->|Hk0]; simpl.
    + rewrite !decide_False by exact Hne. reflexivity.
    + destruct (decide (k0 = k')); [reflexivity | exact IH].
Qed.

Lemma dict_set_keys (d : list (string * pyconst)) (k : string) (v : pyconst) :
  (dict_set d k v).*1 = if decide (k ∈ d.*1) then d.*1 else d.*1 ++ [k].
Proof.
  induction d as [|[k0 v0] d IH].
  - cbn. destruct (decide (k ∈ [])) as [Hin|_]; [|reflexivity].
    apply elem_of_nil in Hin. destruct Hin.
  - cbn [dict_set]. destruct (decide (k0 = k)) as [->|Hk0].
    + cbn. destruct (decide (k ∈ k :: d.*1)) as [_|Hout]; [reflexivity|].
      destruct Hout. apply list_elem_of_here.
    + rewrite fmap_cons, IH. cbn.
      destruct (decide (k ∈ d.*1)) as [Hin|Hout];
        destruct (decide (k ∈ k0 :: d.*1)) as [Hin'|Hout']; try reflexivity.
      * destruct Hout'. apply list_elem_of_further, Hin.
      * apply elem_of_cons in Hin' as [Heq|Hin']; [congruence | destruct (Hout Hin')].
Qed.

Lemma dict_set_NoDup (d : list (string * pyconst)) (k : string) (v : pyconst) :
  NoDup d.*1 -> NoDup (dict_set d k v).*1.
Proof.
  intros Hd. rewrite dict_set_keys. destruct (decide (k ∈ d.*1)) as [Hin|Hout];
    [exact Hd|].
  apply NoDup_app. split; [exact Hd|]. split.
  - intros x Hx Hx'. apply list_elem_of_singleton in Hx'. subst x. exact (Hout Hx).
  - apply NoDup_singleton.
Qed.

Lemma set_pairs_NoDup (tags d : list (string * pyconst)) :
  NoDup d.*1 -> NoDup (fold_left set_pair tags d).*1.
Proof.
  revert d. induction tags as [|[k v] tags IH]; intros d Hd; simpl; [exact Hd|].
  apply IH, dict_set_NoDup, Hd.
Qed.

(** Assigning pairs on a dictionary: what the pairs assign on their own
    comes first, the dictionary decides the rest. *)
Lemma set_pairs_over (tags d : list (string * pyconst)) (n : string) :
  dict_get (fold_left set_pair tags d) n =
  match dict_get (fold_left set_pair tags []) n with
  | Some v => Some v
  | None => dict_get d n
  end.
Proof.
  induction tags as [|[k v] tags IH] using rev_ind; [reflexivity|].
  rewrite !fold_left_app. simpl. unfold set_pair at 1 3. simpl.
  destruct (decide (k = n)) as [->|Hkn].
  - rewrite !dict_get_set. reflexivity.
  - rewrite !dict_get_set_ne by exact Hkn. exact IH.
Qed.

Lemma set_pairs_elem (tags : list (string * pyconst)) (n : string) (v : pyconst) :
  dict_get (fold_left set_pair tags []) n = Some v -> (n, v) ∈ tags.
Proof.
  induction tags as [|[k c] tags IH] using rev_ind; [discriminate|].
  rewrite fold_left_app. simpl. unfold set_pair at 1. simpl.
  destruct (decide (k = n)) as [->|Hkn].
  - rewrite dict_get_set. intros [= ->]. apply elem_of_app. right. apply list_elem_of_here.
  - rewrite dict_get_set_ne by exact Hkn. intros Hget.
    apply elem_of_app. left. apply IH, Hget.
Qed.

Section Collecting.
Context `{Collaborators}.

(** [SetContextExtension.parse], case by case. *)
Lemma SetContextExtension_parse_run (stream : list token) (w : world) :
  SetContextExtension_parse stream w =
  let name := current (tl stream) in
  if String.eqb (type name) "name" then
    if String.eqb (type (current (tl (tl stream)))) "assign" then
      match parse_expression (tl (tl (tl stream))) with
      | Some (Const v, rest) =>
          (Ok ([Assign (Name (tok_value name) "store") (Const v)], rest),
           collected (dict_set (_set_contexts (processor w)) (tok_value name) v) w)
      | Some (_, _) => (Raise AttributeError, w)
      | None => (Raise TemplateSyntaxError, w)
      end
    else (Ok ([], tl (tl stream)), w)
  else (Raise TemplateSyntaxError, w).
Proof.
  unfold SetContextExtension_parse, stream_next, stream_expect, bind. simpl.
  destruct (String.eqb (type (current (tl stream))) "name"); [|reflexivity]. simpl.
  destruct (String.eqb (type (current (tl (tl stream)))) "assign"); [|reflexivity].
  simpl.
  destruct (parse_expression (tl (tl (tl stream)))) as [[value rest]|]; [|reflexivity].
  simpl. destruct value; reflexivity.
Qed.

(** X5: a [setcontext] tag that raises has collected nothing and left the
    world as it was; one that returns has either no [=] after its name,
    contributes no node and collects nothing, or contributes the one
    assignment of a constant to its name and has collected this one pair
    under the name. *)
Theorem setcontext_tag_outcomes (stream : list token) (w : world) :
  match SetContextExtension_parse stream w with
  | (Raise _, w') => w' = w
  | (Ok (nodes, rest), w') =>
      (nodes = [] /\ rest = tl (tl stream) /\ w' = w /\
       String.eqb (type (current (tl (tl stream)))) "assign" = false) \/
      (exists v,
          parse_expression (tl (tl (tl stream))) = Some (Const v, rest) /\
          nodes = [Assign (Name (tok_value (current (tl stream))) "store") (Const v)] /\
          w' = collected (dict_set (_set_contexts (processor w))
                            (tok_value (current (tl stream))) v) w)
  end.
Proof.
  rewrite SetContextExtension_parse_run. simpl.
  destruct (String.eqb (type (current (tl stream))) "name"); [|reflexivity].
  destruct (String.eqb (type (current (tl (tl stream)))) "assign") eqn:Hassign.
  - destruct (parse_expression (tl (tl (tl stream)))) as [[value rest]|];
      [|reflexivity].
    destruct value; try reflexivity. right. eauto.
  - left. auto.
Qed.

Lemma collects_tags_ret {A} (a : A) (nodes_of : A -> list node) :
  collects_tags (ret a) nodes_of [].
Proof.
  split; [reflexivity|]. intros w a' _ nv Hnv. apply elem_of_nil in Hnv. destruct Hnv.
Qed.

Lemma collects_tags_raise {A} (e : exn) (nodes_of : A -> list node) :
  collects_tags (@raise A e) nodes_of [].
Proof.
  split; [reflexivity|]. intros w a' _ nv Hnv. apply elem_of_nil in Hnv. destruct Hnv.
Qed.

Lemma subparse_PExt_collects (stream : list token) :
  exists tags, collects_tags (subparse (PExt stream)) id tags.
Proof.
  assert (Hrun : forall w, subparse (PExt stream) w =
    match SetContextExtension_parse stream w with
    | (Ok (rv, rest), w') =>
        if String.eqb (type (current rest)) "block_end" then (Ok rv, w')
        else (Raise TemplateSyntaxError, w')
    | (Raise e, w') => (Raise e, w')
    end).
  { intros w. simpl. unfold bind at 1.
    destruct (SetContextExtension_parse stream w) as [[[rv rest]|e] w'];
      [|reflexivity].
    unfold bind, stream_expect.
    destruct (String.eqb (type (current rest)) "block_end"); reflexivity. }
  destruct (String.eqb (type (current (tl stream))) "name") eqn:Hname.
  2:{ exists []. split.
      - intros w. rewrite Hrun, SetContextExtension_parse_run. simpl.
        rewrite Hname. reflexivity.
      - intros w a Ha nv Hnv. apply elem_of_nil in Hnv. destruct Hnv. }
  destruct (String.eqb (type (current (tl (tl stream)))) "assign") eqn:Hassign.
  2:{ exists []. split.
      - intros w. rewrite Hrun, SetContextExtension_parse_run. simpl.
        rewrite Hname, Hassign.
        destruct (String.eqb _ "block_end"); reflexivity.
      - intros w a Ha nv Hnv. apply elem_of_nil in Hnv. destruct Hnv. }
  destruct (parse_expression (tl (tl (tl stream)))) as [[value rest]|] eqn:Hexpr.
  2:{ exists []. split.
      - intros w. rewrite Hrun, SetContextExtension_parse_run. simpl.
        rewrite Hname, Hassign, Hexpr. reflexivity.
      - intros w a Ha nv Hnv. apply elem_of_nil in Hnv. destruct Hnv. }
  destruct (is_Const value) eqn:Hconst.
  2:{ exists []. split.
      - intros w. rewrite Hrun, SetContextExtension_parse_run. simpl.
        rewrite Hname, Hassign, Hexpr. destruct value; try reflexivity. discriminate.
      - intros w a Ha nv Hnv. apply elem_of_nil in Hnv. destruct Hnv. }
  destruct value as [| v | | |]; try discriminate.
  exists [(tok_value (current (tl stream)), v)]. split.
  - intros w. rewrite Hrun, SetContextExtension_parse_run. simpl.
    rewrite Hname, Hassign, Hexpr.
    destruct (String.eqb _ "block_end"); reflexivity.
  - intros w a. rewrite Hrun, SetContextExtension_parse_run. simpl.
    rewrite Hname, Hassign, Hexpr.
    destruct (String.eqb _ "block_end"); [|discriminate].
    simpl. intros [= <-] nv Hnv. exact Hnv.
Qed.

Lemma subparse_body_collects (ts : list ptree) :
  Forall (fun t => exists tags, collects_tags (subparse t) id tags) ts ->
  exists tags, collects_tags (subparse_body ts) id tags.
Proof.
  induction 1 as [|t ts [tags1 [Hsc1 Hin1]] _ [tags2 [Hsc2 Hin2]]].
  { exists []. apply collects_tags_ret. }
  pose (w0 := {| processor := init; trace := [] |}).
  assert (Hsame : forall w, fst (subparse t w) = fst (subparse t w0))
    by (intros w; apply parser_like_subparse).
  destruct (fst (subparse t w0)) as [ns|e] eqn:Hr0.
  - exists (tags1 ++ tags2). split.
    + intros w. simpl. unfold bind at 1.
      specialize (Hsame w). specialize (Hsc1 w).
      destruct (subparse t w) as [[ns'|e'] w1]; simpl in *; [|discriminate].
      unfold bind. specialize (Hsc2 w1).
      rewrite fold_left_app, <- Hsc1.
      destruct (subparse_body ts w1) as [[ms|e'] w2]; simpl in *; exact Hsc2.
    + intros w a. simpl. unfold bind at 1.
      specialize (Hsame w). pose proof (Hin1 w) as Hin1w.
      destruct (subparse t w) as [[ns'|e'] w1]; simpl in *; [|discriminate].
      unfold bind. pose proof (Hin2 w1) as Hin2w.
      destruct (subparse_body ts w1) as [[ms|e'] w2]; simpl in *; [|discriminate].
      intros [= <-] nv [Hnv|Hnv]%elem_of_app;
        rewrite flat_map_app, omap_app; apply elem_of_app.
      * left. apply (Hin1w ns'); [reflexivity | exact Hnv].
      * right. apply (Hin2w ms); [reflexivity | exact Hnv].
  - exists tags1. split.
    + intros w. simpl. unfold bind at 1.
      specialize (Hsame w). specialize (Hsc1 w).
      destruct (subparse t w) as [[ns'|e'] w1]; simpl in *; [discriminate|].
      exact Hsc1.
    + intros w a. simpl. unfold bind at 1. specialize (Hsame w).
      destruct (subparse t w) as [[ns'|e'] w1]; simpl in *; discriminate.
Qed.

Lemma subparse_collects (t : ptree) :
  exists tags, collects_tags (subparse t) id tags.
Proof.
  induction t as [n|class body IH|stream|] using ptree_body_ind.
  - exists []. apply (collects_tags_ret [n]).
  - destruct (subparse_body_collects body IH) as [tags [Hsc Hin]].
    exists tags. rewrite subparse_PNest. split.
    + intros w. unfold bind. specialize (Hsc w).
      destruct (subparse_body body w) as [[ns|e] w1]; exact Hsc.
    + intros w a. unfold bind. pose proof (Hin w) as Hinw.
      destruct (subparse_body body w) as [[ns|e] w1]; simpl in *; [|discriminate].
      intros [= <-] nv Hnv. unfold id. cbn. rewrite app_nil_r.
      apply (Hinw ns); [reflexivity | exact Hnv].
  - apply subparse_PExt_collects.
  - exists []. apply collects_tags_raise.
Qed.

(** What the parse of a text collects: the same pairs in every world,
    assigned in order on what the processor holds; when the text parses,
    they are constant assignments of its AST. *)
Lemma env_parse_collects (text : string) :
  exists tags,
    (forall w, _set_contexts (processor (snd (env_parse text w)))
               = fold_left set_pair tags (_set_contexts (processor w))) /\
    (forall ast, fst (fresh_parse text) = Ok ast ->
                 forall nv, nv ∈ tags -> nv ∈ const_assignments ast).
Proof.
  destruct (subparse_body_collects (parser_walk text)) as [tags [Hsc Hin]].
  { apply Forall_forall. intros t _. apply subparse_collects. }
  exists tags. split.
  - intros w. unfold env_parse, bind. specialize (Hsc w).
    destruct (subparse_body (parser_walk text) w) as [[ns|e] w1]; exact Hsc.
  - intros ast. unfold fresh_parse, env_parse, bind. simpl.
    pose proof (Hin {| processor := init; trace := [] |}) as Hin0.
    destruct (subparse_body (parser_walk text) _) as [[ns|e] w1]; simpl in *;
      [|discriminate].
    intros [= <-] nv Hnv. unfold const_assignments. rewrite descendants_unfold.
    apply (Hin0 ns); [reflexivity | exact Hnv].
Qed.

Lemma fresh_parse_collected (text : string) (tags : list (string * pyconst)) :
  (forall w, _set_contexts (processor (snd (env_parse text w)))
             = fold_left set_pair tags (_set_contexts (processor w))) ->
  snd (fresh_parse text) = fold_left set_pair tags [].
Proof. intros Hsc. unfold fresh_parse. simpl. rewrite Hsc. reflexivity. Qed.

(** X6: a [setcontext] tag works as a [set] tag: every pair a parse has
    collected is a constant assignment of the AST, and its name is a
    constant variable of the AST. *)
Theorem collected_pairs_are_assignments (text : string) (ast : node)
  (d : list (string * pyconst)) (name : string) (value : pyconst) :
  fresh_parse text = (Ok ast, d) ->
  dict_get d name = Some value ->
  (name, value) ∈ const_assignments ast /\
  is_Some (_get_const_vars ast !! name).
Proof.
  intros Hparse Hget.
  destruct (env_parse_collects text) as (tags & Hsc & Hin).
  pose proof (fresh_parse_collected text tags Hsc) as Hd.
  rewrite Hparse in Hd, Hin. simpl in Hd, Hin. subst d.
  assert (Helem : (name, value) ∈ const_assignments ast).
  { apply (Hin ast eq_refl). apply set_pairs_elem, Hget. }
  split; [exact Helem|].
  destruct (last_assignment_exists (const_assignments ast) name) as [c Hc].
  - apply list_elem_of_fmap. exists (name, value). split; [reflexivity | exact Helem].
  - exists c. rewrite get_const_vars_fold. apply assign_pairs_lookup. left. exact Hc.
Qed.

(** X7: [prepare] sets every context name of a path at most once: the
    names of its [set_context] calls are pairwise distinct, the value of a
    name being the one of its last tag. *)
Theorem prepare_sets_each_name_once (path : string) (w : world) (text : string)
  (ast : node) (d : list (string * pyconst)) :
  _generate (processor w) !! path = None ->
  read_text (trace w) path = Some text ->
  fresh_parse text = (Ok ast, d) ->
  exists w' new,
    prepare path w = (Ok tt, w') /\
    trace w' = trace w ++ new /\
    NoDup (contexts_set path new).*1.
Proof.
  intros Hp Hread Hparse.
  eexists _, (registration path ast d). split; [|split].
  - rewrite prepare_run. unfold prepare_outcome. rewrite Hp, Hread, Hparse. reflexivity.
  - reflexivity.
  - destruct (env_parse_collects text) as (tags & Hsc & _).
    pose proof (fresh_parse_collected text tags Hsc) as Hd.
    rewrite Hparse in Hd. simpl in Hd. subst d.
    unfold registration, contexts_set. cbn. rewrite !omap_app. cbn.
    rewrite (omap_map_None (fun nv : pyconst * pyconst => _)) by reflexivity.
    cbn. rewrite omap_map_Some.
    + apply set_pairs_NoDup. apply NoDup_nil_2.
    + intros [a b]. cbn. rewrite decide_True by reflexivity. reflexivity.
Qed.

(** What the processor holds for a name after the parse of a text: the
    value the text gives the name, and what it held before when the text
    gives it none. *)
Lemma env_parse_over (text : string) (w : world) (name : string) :
  dict_get (_set_contexts (processor (snd (env_parse text w)))) name =
  match dict_get (snd (fresh_parse text)) name with
  | Some value => Some value
  | None => dict_get (_set_contexts (processor w)) name
  end.
Proof.
  destruct (env_parse_collects text) as (tags & Hsc & _).
  rewrite (fresh_parse_collected text tags Hsc), Hsc. apply set_pairs_over.
Qed.

Lemma for_each_load_cons (source : string) (l : list string) (w : world) :
  for_each (source :: l)
    (fun source => bind (env_from_string source) (fun _ => ret tt)) w =
  match fst (env_from_string source w) with
  | Ok _ =>
      for_each l (fun source => bind (env_from_string source) (fun _ => ret tt))
        (snd (env_from_string source w))
  | Raise e => (Raise e, snd (env_from_string source w))
  end.
Proof.
  simpl. unfold bind. destruct (env_from_string source w) as [[t|e] w1]; reflexivity.
Qed.

Lemma render_run (template : string) (context : gmap string jvalue) (w : world) :
  render template context w =
  match fst (for_each (template_loads (trace w) template context)
               (fun source => bind (env_from_string source) (fun _ => ret tt)) w) with
  | Ok _ =>
      (match template_render (trace w) template context with
       | Some rendered => Ok rendered
       | None => Raise TemplateError
       end,
       snd (for_each (template_loads (trace w) template context)
              (fun source => bind (env_from_string source) (fun _ => ret tt)) w))
  | Raise e =>
      (Raise e,
       snd (for_each (template_loads (trace w) template context)
              (fun source => bind (env_from_string source) (fun _ => ret tt)) w))
  end.
Proof.
  rewrite render_unfold. unfold bind at 1.
  destruct (for_each _ _ w) as [[[]|e] w1]; cbn [fst snd]; [|reflexivity].
  destruct (template_render _ _ _); reflexivity.
Qed.

Lemma loads_collect (l : list string) (w : world) (name : string) :
  fst (for_each l (fun source => bind (env_from_string source) (fun _ => ret tt)) w)
  = Ok tt ->
  dict_get (_set_contexts (processor (snd
    (for_each l (fun source => bind (env_from_string source) (fun _ => ret tt)) w))))
    name =
  fold_left (fun held source =>
               match dict_get (snd (fresh_parse source)) name with
               | Some value => Some value
               | None => held
               end) l (dict_get (_set_contexts (processor w)) name).
Proof.
  revert w. induction l as [|source l IH]; intros w; [reflexivity|].
  rewrite for_each_load_cons, env_from_string_run. cbn [fst snd].
  destruct (match fst (fresh_parse source) with
            | Ok _ => if compile_ok source then Ok source
                      else Raise TemplateAssertionError
            | Raise e => Raise e
            end) as [t|e]; [|discriminate].
  intros Hrest. rewrite (IH _ Hrest), env_parse_over. reflexivity.
Qed.

(** X8: a [generate] that returns has parsed the text of the path again,
    and loaded the templates that its rendering needs: the processor holds
    the pairs of these texts on top of what it held, the later text deciding
    for a name that several of them set; a name that the file sets and no
    loaded template sets has the value of the file, whatever file the
    processor had collected it for, and a name none of them sets is as
    before. *)
Theorem generate_collects_again (path : string) (w w' : world)
  (target : string) (ast : node) :
  _generate (processor w) !! path = Some (target, ast) ->
  generate path w = (Ok tt, w') ->
  exists text,
    read_text (trace w) path = Some text /\
    forall name,
      dict_get (_set_contexts (processor w')) name =
      fold_left (fun held source =>
                   match dict_get (snd (fresh_parse source)) name with
                   | Some value => Some value
                   | None => held
                   end)
                (text :: template_loads
                           (trace w ++ [os_makedirs (os_path_dirname target);
                                        open_w target])
                           text (context_dict (trace w) path))
                (dict_get (_set_contexts (processor w)) name).
Proof.
  intros Hp. rewrite generate_run. unfold generate_outcome. rewrite Hp.
  destruct (read_text (trace w) path) as [text|]; [|discriminate].
  rewrite env_from_string_run. cbn [fst snd].
  destruct (match fst (fresh_parse text) with
            | Ok _ => if compile_ok text then Ok text
                      else Raise TemplateAssertionError
            | Raise e => Raise e
            end) as [t|e] eqn:Hcompiled; [|discriminate].
  assert (t = text) as ->.
  { destruct (fst (fresh_parse text)); [|discriminate].
    destruct (compile_ok text); [|discriminate]. congruence. }
  destruct (makedirs_ok _ _); [|discriminate].
  destruct (open_w_ok _ _); [|discriminate].
  rewrite render_run. cbn [trace].
  match goal with |- context [for_each ?l ?body ?u] =>
    pose proof (fun name => loads_collect l u name) as Hloads;
    destruct (for_each l body u) as [[[]|e] w3] end;
    cbn [fst snd] in *; [|discriminate].
  destruct (template_render _ _ _) as [rendered|]; cbn [fst snd]; [|discriminate].
  destruct (fh_write_raises _ _ _); [discriminate|].
  intros [= <-]. exists text. split; [reflexivity|].
  intros name. cbn [processor with_generate _set_contexts fold_left].
  rewrite (Hloads name eq_refl). cbn [processor]. rewrite env_parse_over. reflexivity.
Qed.

End Collecting.

(** ** How [prepare] and [generate] fail and compose *)

Section Composing.
Context `{Collaborators}.

(** X9: a [prepare] that raises has called the host not once and has left
    the pending map as it was; the path was not pending, and it is the
    current path now.  Either the file could not be read, and nothing is
    collected, or its text does not parse, and the processor holds what the
    parse had collected when it stopped. *)
Theorem prepare_raises_before_registering (path : string) (w w' : world) (e : exn) :
  prepare path w = (Raise e, w') ->
  _generate (processor w) !! path = None /\
  trace w' = trace w /\
  _generate (processor w') = _generate (processor w) /\
  current_path (processor w') = Some path /\
  ((read_text (trace w) path = None /\ e = OSError /\
    _set_contexts (processor w') = []) \/
   (exists text,
       read_text (trace w) path = Some text /\
       fst (fresh_parse text) = Raise e /\
       _set_contexts (processor w') = snd (fresh_parse text))).
Proof.
  rewrite prepare_run. unfold prepare_outcome.
  destruct (_generate (processor w) !! path); [discriminate|].
  destruct (read_text (trace w) path) as [text|].
  - destruct (fresh_parse text) as [[ast|e'] d] eqn:Hparse; [discriminate|].
    intros [= <- <-]. repeat split. right. exists text. rewrite Hparse. auto.
  - intros [= <- <-]. repeat split. left. auto.
Qed.

(** The value [prepare] reads for [template_only] is falsy exactly when
    the AST has no constant assignment to that name, or the last one assigns
    a falsy constant. *)
Lemma template_only_falsy (ast : node) :
  truthy (template_only ast) = false <->
  ("template_only" ∉ (const_assignments ast).*1 \/
   exists c, last_assignment (const_assignments ast) "template_only" c /\
             truthy c = false).
Proof.
  unfold template_only. rewrite get_const_vars_fold.
  destruct (fold_left assign_pair (const_assignments ast) ∅ !! "template_only")
    as [c|] eqn:Hlookup; simpl.
  - apply assign_pairs_lookup in Hlookup as [Hlast|[_ Hempty]];
      [|rewrite lookup_empty in Hempty; discriminate].
    split.
    + intros Hc. right. exists c. auto.
    + intros [Hnot|(c' & Hlast' & Hc')].
      * destruct Hnot. apply list_elem_of_fmap.
        exists ("template_only", c). split; [reflexivity|].
        apply last_assignment_elem, Hlast.
      * assert (Hsome : fold_left assign_pair (const_assignments ast) ∅
                          !! "template_only" = Some c')
          by (apply assign_pairs_lookup; left; exact Hlast').
        assert (Hsome' : fold_left assign_pair (const_assignments ast) ∅
                           !! "template_only" = Some c)
          by (apply assign_pairs_lookup; left; exact Hlast).
        congruence.
  - split; [|reflexivity]. intros _. left. intros Hin.
    destruct (last_assignment_exists _ _ Hin) as [c Hlast].
    assert (Hsome : fold_left assign_pair (const_assignments ast) ∅
                      !! "template_only" = Some c)
      by (apply assign_pairs_lookup; left; exact Hlast).
    congruence.
Qed.

(** X10: after a [prepare] that has parsed the file, the path is pending,
    with its target and its AST, exactly when the AST has no constant
    assignment to [template_only] or the last such assignment is falsy:
    [None], [False], [0], [0.0] or the empty string. *)
Theorem pending_unless_template_only (path : string) (w : world) (text : string)
  (ast : node) (d : list (string * pyconst)) :
  _generate (processor w) !! path = None ->
  read_text (trace w) path = Some text ->
  fresh_parse text = (Ok ast, d) ->
  exists w',
    prepare path w = (Ok tt, w') /\
    (_generate (processor w') !! path = Some (target_path path, ast) <->
     ("template_only" ∉ (const_assignments ast).*1 \/
      exists c, last_assignment (const_assignments ast) "template_only" c /\
                truthy c = false)) /\
    (forall c, truthy c = false <->
               c = PyNone \/ c = PyBool false \/ c = PyInt 0 \/
               (exists s, c = PyFloat (S754_zero s)) \/ c = PyStr "").
Proof.
  intros Hp Hread Hparse. eexists. split; [|split].
  - rewrite prepare_run. unfold prepare_outcome. rewrite Hp, Hread, Hparse. reflexivity.
  - rewrite <- template_only_falsy. simpl.
    destruct (truthy (template_only ast)).
    + rewrite Hp. split; discriminate.
    + rewrite lookup_insert_eq. split; reflexivity.
  - intros c. split.
    + destruct c as [|[|]|z|f|s]; simpl; try discriminate; auto.
      * destruct z; simpl; try discriminate; auto.
      * destruct f; try discriminate. eauto 6.
      * destruct s; simpl; try discriminate. auto 6.
    + intros [->|[->|[->|[[s ->]| ->]]]]; reflexivity.
Qed.

(** What a rendering comes to when the templates it loads parse and
    compile. *)
Lemma render_result (template : string) (context : gmap string jvalue) (w : world) :
  Forall (fun source => (exists a, fst (fresh_parse source) = Ok a) /\
                        compile_ok source = true)
         (template_loads (trace w) template context) ->
  fst (render template context w) =
  match template_render (trace w) template context with
  | Some rendered => Ok rendered
  | None => Raise TemplateError
  end.
Proof.
  intros Hloads. rewrite render_run, (loads_return _ w Hloads). reflexivity.
Qed.



(** X12: how [generate] of a pending path fails.  When its source cannot be
    read it raises and leaves everything as it was.  When the source parses
    but does not compile it raises before it touches a directory or a file.
    When the rendering raises, the directories have been made and the target
    has been opened for writing, so the target is left empty, and no text
    has been written.  When the writing raises, the target has been opened
    as well.  And whenever [generate] raises, the path is still pending,
    with the target and the AST it had. *)
Theorem generate_failures (path : string) (w : world) (target : string) (ast : node) :
  let opened := trace w ++ [os_makedirs (os_path_dirname target); open_w target] in
  _generate (processor w) !! path = Some (target, ast) ->
  (read_text (trace w) path = None -> generate path w = (Raise OSError, w)) /\
  (forall text ast',
      read_text (trace w) path = Some text ->
      fst (fresh_parse text) = Ok ast' ->
      compile_ok text = false ->
      exists w',
        generate path w = (Raise TemplateAssertionError, w') /\
        trace w' = trace w) /\
  (forall text ast',
      read_text (trace w) path = Some text ->
      fst (fresh_parse text) = Ok ast' ->
      compile_ok text = true ->
      makedirs_ok (trace w) (os_path_dirname target) = true ->
      open_w_ok (trace w ++ [os_makedirs (os_path_dirname target)]) target = true ->
      Forall (fun source => (exists a, fst (fresh_parse source) = Ok a) /\
                            compile_ok source = true)
             (template_loads opened text (context_dict (trace w) path)) ->
      (template_render opened text (context_dict (trace w) path) = None ->
       exists w',
         generate path w = (Raise TemplateError, w') /\
         trace w' = opened /\
         written (trace w') = written (trace w)) /\
      (forall rendered e,
          template_render opened text (context_dict (trace w) path) = Some rendered ->
          fh_write_raises opened target rendered = Some e ->
          exists w', generate path w = (Raise e, w') /\ trace w' = opened)) /\
  (forall e w',
      generate path w = (Raise e, w') ->
      _generate (processor w') !! path = Some (target, ast)).
Proof.
  intros opened Hp. split; [|split; [|split]].
  - intros Hread. rewrite generate_run. unfold generate_outcome.
    rewrite Hp, Hread. reflexivity.
  - intros text ast' Hread Hparse Hcompile.
    pose proof (env_parse_frame text w) as (Htr & _ & _).
    eexists. rewrite generate_run. unfold generate_outcome.
    rewrite Hp, Hread, env_from_string_run, Hparse, Hcompile. cbn [fst snd].
    split; [reflexivity | exact Htr].
  - intros text ast' Hread Hparse Hcompile Hmk Hopen Hloads.
    pose (u := {| processor := processor (snd (env_parse text w)); trace := opened |}).
    pose proof (render_frame text (context_dict (trace w) path) u) as (Htr & _ & _).
    pose proof (render_result text (context_dict (trace w) path) u Hloads) as Hout.
    cbn [trace u] in Hout, Htr.
    assert (Hrun : generate path w =
      match fst (render text (context_dict (trace w) path) u) with
      | Raise e => (Raise e, snd (render text (context_dict (trace w) path) u))
      | Ok rendered =>
          match fh_write_raises opened target rendered with
          | Some e =>
              (Raise e,
               {| processor := processor
                                 (snd (render text (context_dict (trace w) path) u));
                  trace := opened |})
          | None =>
              (Ok tt,
               {| processor := with_generate (delete path)
                    (processor (snd (render text (context_dict (trace w) path) u)));
                  trace := opened ++ [fh_write target rendered] |})
          end
      end).
    { rewrite generate_run. unfold generate_outcome.
      rewrite Hp, Hread, env_from_string_run, Hparse, Hcompile. cbn [fst snd].
      rewrite Hmk, Hopen. reflexivity. }
    split.
    + intros Hrender. rewrite Hrender in Hout. rewrite Hrun, Hout.
      eexists. split; [reflexivity|]. split; [exact Htr|].
      cbn [snd]. rewrite Htr. unfold opened. rewrite written_app. apply app_nil_r.
    + intros rendered e Hrender Hwrite. rewrite Hrender in Hout.
      rewrite Hrun, Hout, Hwrite. eexists. split; reflexivity.
  - intros e w' Hgenerate. pose proof (generate_pending_map path w) as Hmap.
    rewrite Hgenerate in Hmap. cbn [fst snd] in Hmap. rewrite Hmap. exact Hp.
Qed.

(** X13: [generate] does not use the AST that [prepare] has recorded: with
    another AST recorded for the path, it returns or raises the same, makes
    the same calls and leaves the same pairs collected. *)
Theorem generate_ignores_recorded_ast (path target : string) (ast ast' : node)
  (w : world) :
  fst (generate path (recorded path target ast w))
  = fst (generate path (recorded path target ast' w)) /\
  trace (snd (generate path (recorded path target ast w)))
  = trace (snd (generate path (recorded path target ast' w))) /\
  _set_contexts (processor (snd (generate path (recorded path target ast w))))
  = _set_contexts (processor (snd (generate path (recorded path target ast' w)))).
Proof.
  rewrite !generate_run. unfold generate_outcome.
  set (w1 := recorded path target ast w). set (w2 := recorded path target ast' w).
  assert (Hp1 : _generate (processor w1) !! path = Some (target, ast))
    by apply lookup_insert_eq.
  assert (Hp2 : _generate (processor w2) !! path = Some (target, ast'))
    by apply lookup_insert_eq.
  rewrite Hp1, Hp2. change (trace w2) with (trace w1).
  destruct (read_text (trace w1) path) as [text|]; [|repeat split].
  destruct (parser_like_env_from_string text w1 w2) as (Hfst & Hagree & Htr1 & _).
  destruct (env_from_string_frame text w2) as (Htr2 & _).
  change (trace w2) with (trace w1) in Htr2.
  specialize (Hagree eq_refl). unfold agree in Hagree.
  destruct (env_from_string text w1) as [r1 u1], (env_from_string text w2) as [r2 u2].
  cbn [fst snd] in *. subst r2.
  destruct r1 as [template|e];
    [|cbn [fst snd]; repeat split; [congruence | exact Hagree]].
  destruct (makedirs_ok _ _); [|repeat split; exact Hagree].
  destruct (open_w_ok _ _); [|repeat split; exact Hagree].
  set (T := trace w1 ++ [os_makedirs (os_path_dirname target); open_w target]).
  set (o1 := {| processor := processor u1; trace := T |}).
  set (o2 := {| processor := processor u2; trace := T |}).
  destruct (parser_like_rendering T template (context_dict (trace w1) path) o1 o2)
    as (Hfst' & Hagree' & Htr1' & _).
  destruct (parser_like_rendering T template (context_dict (trace w1) path) o2 o2)
    as (_ & _ & Htr2' & _).
  specialize (Hagree' Hagree). unfold agree in Hagree'.
  change (bind _ _ o1) with (render template (context_dict (trace w1) path) o1)
    in Hfst', Hagree', Htr1'.
  change (bind _ _ o2) with (render template (context_dict (trace w1) path) o2)
    in Hfst', Hagree', Htr2'.
  destruct (render template (context_dict (trace w1) path) o1) as [q1 v1],
           (render template (context_dict (trace w1) path) o2) as [q2 v2].
  cbn [fst snd trace o1 o2] in *. subst q2.
  destruct q1 as [rendered|e];
    [|cbn [fst snd]; repeat split; [congruence | exact Hagree']].
  destruct (fh_write_raises T target rendered); repeat split; exact Hagree'.
Qed.

(** X14: whatever [prepare] comes to, the calls it has added are calls on
    the host for its path: it touches the registrations of no other path,
    and it makes no directory and opens and writes no file. *)
Theorem prepare_calls_host_for_path_only (path : string) (w : world) :
  exists new,
    trace (snd (prepare path w)) = trace w ++ new /\
    Forall (host_call_for path) new /\
    written new = [].
Proof.
  rewrite prepare_run. unfold prepare_outcome.
  destruct (_generate (processor w) !! path).
  { exists []. rewrite app_nil_r. repeat split. constructor. }
  destruct (read_text (trace w) path) as [text|].
  2:{ exists []. rewrite app_nil_r. repeat split. constructor. }
  destruct (fresh_parse text) as [[ast|e] d].
  2:{ exists []. rewrite app_nil_r. repeat split. constructor. }
  exists (registration path ast d). split; [reflexivity|].
  assert (Hcalls : Forall (host_call_for path) (registration path ast d)).
  { apply Forall_forall. intros e He. apply registration_for_path in He.
    destruct e; exact He. }
  split; [exact Hcalls|].
  induction Hcalls as [|e l He _ IH]; [reflexivity|].
  unfold written in *. cbn. rewrite IH. destruct e; try reflexivity; destruct He.
Qed.

(** X15: whatever [generate] comes to, it calls the host for no change: for
    a pending path what it adds are the making of the directory of the
    recorded target and the opening and the writing of that target, with at
    most one text written; for a path that is not pending it adds
    nothing. *)
Theorem generate_touches_recorded_target_only (path : string) (w : world) :
  exists new,
    trace (snd (generate path w)) = trace w ++ new /\
    match _generate (processor w) !! path with
    | Some (target, _) =>
        Forall (file_event_for (os_path_dirname target) target) new /\
        length (written new) <= 1
    | None => new = []
    end.
Proof.
  rewrite generate_run. unfold generate_outcome.
  destruct (_generate (processor w) !! path) as [[target ast]|].
  2:{ exists []. rewrite app_nil_r. split; reflexivity. }
  destruct (read_text (trace w) path) as [text|].
  2:{ exists []. rewrite app_nil_r. repeat split; [constructor | simpl; lia]. }
  pose proof (env_from_string_frame text w) as (Htr & _).
  destruct (env_from_string text w) as [[template|e] w1]; cbn [fst snd] in *.
  2:{ exists []. rewrite app_nil_r. repeat split; [exact Htr | constructor | simpl; lia]. }
  destruct (makedirs_ok _ _).
  2:{ exists []. rewrite app_nil_r. repeat split; [constructor | simpl; lia]. }
  destruct (open_w_ok _ _).
  2:{ eexists. split; [reflexivity|]. split; [|simpl; lia].
      repeat constructor. }
  match goal with |- context [render template ?c ?u] =>
    pose proof (render_frame template c u) as (Htr' & _);
    destruct (render template c u) as [[rendered|e] w3] end;
    cbn [fst snd trace] in *.
  - destruct (fh_write_raises _ target rendered).
    + eexists. split; [reflexivity|]. split; [|simpl; lia]. repeat constructor.
    + exists [os_makedirs (os_path_dirname target); open_w target;
              fh_write target rendered].
      split; [cbn [snd trace]; rewrite <- app_assoc; reflexivity|].
      split; [|simpl; lia]. repeat constructor.
  - eexists. split; [exact Htr'|]. split; [|simpl; lia]. repeat constructor.
Qed.

End Composing.

(** ** The template function [getcontexts] *)

Lemma fold_left_snoc_map {A B} (f : A -> B) (l : list A) (acc : list B) :
  fold_left (fun acc x => acc ++ [f x]) l acc = acc ++ map f l.
Proof.
  revert acc. induction l as [|x l IH]; intros acc; simpl.
  - rewrite app_nil_r. reflexivity.
  - rewrite IH, <- app_assoc. reflexivity.
Qed.

(** Context variables laid over a dictionary: the last value of a name
    decides, and a name without a variable keeps what the dictionary has. *)
Lemma context_vars_last (l : list (string * pyconst)) (m : gmap string cvalue)
  (n : string) (c : pyconst) :
  last_assignment l n c ->
  fold_left (fun d cv => <[cv.1 := ContextVar cv.2]> d) l m !! n
  = Some (ContextVar c).
Proof.
  intros (l1 & l2 & -> & Hl2). rewrite fold_left_app. simpl.
  generalize (fold_left (fun d cv => <[cv.1 := ContextVar cv.2]> d) l1 m). intros m1.
  assert (Hm : <[n := ContextVar c]> m1 !! n = Some (ContextVar c))
    by apply lookup_insert_eq.
  revert Hm. generalize (<[n := ContextVar c]> m1). clear m1.
  induction l2 as [|[k v] l2 IH]; intros m2 Hm; simpl; [exact Hm|].
  apply IH.
  - intros Hin. apply Hl2. simpl. apply list_elem_of_further, Hin.
  - rewrite lookup_insert_ne; [exact Hm|].
    intros ->. apply Hl2. simpl. apply list_elem_of_here.
Qed.

Lemma context_vars_other (l : list (string * pyconst)) (m : gmap string cvalue)
  (n : string) :
  n ∉ l.*1 ->
  fold_left (fun d cv => <[cv.1 := ContextVar cv.2]> d) l m !! n = m !! n.
Proof.
  revert m. induction l as [|[k v] l IH]; intros m Hn; simpl; [reflexivity|].
  rewrite IH.
  - apply lookup_insert_ne. intros ->. apply Hn. simpl. apply list_elem_of_here.
  - intros Hin. apply Hn. simpl. apply list_elem_of_further, Hin.
Qed.

Section TemplateFunction.
Context `{Collaborators} `{ContextStore}.

(** X16: [getcontexts] gives one dictionary per result of the host, in
    the order of the results, and the dictionary of a result is the
    rendering context that [generate] builds for the source of the result,
    with the context variables of that source assigned on top. *)
Theorem get_contexts_per_result (tr : list event) (name value : pyconst) :
  get_contexts tr name value =
  map (fun source =>
         fold_left (fun d cv => <[cv.1 := ContextVar cv.2]> d)
                   (contexts_of_source tr source)
                   (FileData <$> context_dict tr source))
      (contexts_get_contexts tr name value).
Proof.
  unfold get_contexts. rewrite fold_left_snoc_map. simpl.
  apply map_ext. intros source. unfold get_contexts_entry, context_dict.
  f_equal. destruct (sources_get_source tr source) as [src|].
  - destruct (sources_get_targets tr source) as [|t [|t' ts]];
      rewrite !fmap_insert, fmap_empty; reflexivity.
  - rewrite fmap_empty. reflexivity.
Qed.

(** X17: in the dictionary of a result, a context variable hides the datum
    of the file of the same name ([url], [urls], [size], [modified]); of the
    values of a variable that the host gives more than once, the last one is
    kept; a name that is no variable has the datum of the file, and none
    when the host has no record of the source. *)
Theorem get_contexts_variables_first (tr : list event) (name value : pyconst)
  (i : nat) (source : string) :
  contexts_get_contexts tr name value !! i = Some source ->
  exists entry,
    get_contexts tr name value !! i = Some entry /\
    (forall n c, last_assignment (contexts_of_source tr source) n c ->
                 entry !! n = Some (ContextVar c)) /\
    (forall n, n ∉ (contexts_of_source tr source).*1 ->
               entry !! n = FileData <$> context_dict tr source !! n) /\
    (forall n, n ∉ (contexts_of_source tr source).*1 ->
               sources_get_source tr source = None -> entry !! n = None).
Proof.
  intros Hi. rewrite get_contexts_per_result, list_lookup_fmap, Hi. simpl.
  eexists. split; [reflexivity|]. split; [|split].
  - intros n c Hlast. apply context_vars_last, Hlast.
  - intros n Hn. rewrite context_vars_other by exact Hn. apply lookup_fmap.
  - intros n Hn Hsource. rewrite context_vars_other by exact Hn.
    unfold context_dict. rewrite Hsource, fmap_empty. apply lookup_empty.
Qed.

End TemplateFunction.

(** ** The further properties on the small site *)

Import Store.

Lemma can_process_in_src :
  5 <= String.length "index.html" /\
  can_process ("/src/" +:+ "index.html") = can_process "index.html".
Proof.
  split; [cbn; lia|].
  apply (can_process_whatever_the_directory "/src/" "index.html"). cbn. lia.
Defined.

Lemma title_of_index_is_assigned :
  fresh_parse text_index = (Ok ast_index, [("title", PyStr "Home")]) /\
  dict_get [("title", PyStr "Home")] "title" = Some (PyStr "Home") /\
  ("title", PyStr "Home") ∈ const_assignments ast_index /\
  is_Some (_get_const_vars ast_index !! "title").
Proof.
  split; [reflexivity|]. split; [reflexivity|].
  apply (collected_pairs_are_assignments text_index ast_index
           [("title", PyStr "Home")] "title" (PyStr "Home")); reflexivity.
Defined.

Lemma index_sets_each_name_once :
  _generate (processor start) !! "/src/index.html" = None /\
  read_text (trace start) "/src/index.html" = Some text_index /\
  fresh_parse text_index = (Ok ast_index, [("title", PyStr "Home")]) /\
  exists w' new,
    prepare "/src/index.html" start = (Ok tt, w') /\
    trace w' = trace start ++ new /\
    NoDup (contexts_set "/src/index.html" new).*1.
Proof.
  split; [reflexivity|]. split; [reflexivity|]. split; [reflexivity|].
  apply (prepare_sets_each_name_once "/src/index.html" start text_index ast_index
           [("title", PyStr "Home")]); reflexivity.
Defined.

(** The index page is generated after the post has been prepared: the
    title the processor holds is the one of the post before, and the one of
    the index page after. *)
Lemma generating_index_collects_its_title :
  _generate (processor both_pending) !! "/src/index.html"
  = Some ("/build/src/index.html", ast_index) /\
  generate "/src/index.html" both_pending
  = (Ok tt, snd (generate "/src/index.html" both_pending)) /\
  dict_get (_set_contexts (processor both_pending)) "title" = Some (PyStr "Post") /\
  dict_get (_set_contexts (processor (snd (generate "/src/index.html" both_pending))))
    "title" = Some (PyStr "Home") /\
  exists text,
    read_text (trace both_pending) "/src/index.html" = Some text /\
    forall name,
      dict_get (_set_contexts
                  (processor (snd (generate "/src/index.html" both_pending)))) name =
      fold_left (fun held source =>
                   match dict_get (snd (fresh_parse source)) name with
                   | Some value => Some value
                   | None => held
                   end)
                (text :: template_loads
                           (trace both_pending
                              ++ [os_makedirs (os_path_dirname "/build/src/index.html");
                                  open_w "/build/src/index.html"])
                           text (context_dict (trace both_pending) "/src/index.html"))
                (dict_get (_set_contexts (processor both_pending)) name).
Proof.
  assert (Hgen : generate "/src/index.html" both_pending
                 = (Ok tt, snd (generate "/src/index.html" both_pending)))
    by reflexivity.
  split; [reflexivity|]. split; [exact Hgen|]. split; [reflexivity|].
  split; [reflexivity|].
  apply (generate_collects_again "/src/index.html" both_pending
           (snd (generate "/src/index.html" both_pending))
           "/build/src/index.html" ast_index); [reflexivity | exact Hgen].
Defined.

Lemma missing_file_raises_before_registering :
  prepare "/src/missing.html" index_pending
  = (Raise OSError, snd (prepare "/src/missing.html" index_pending)) /\
  _generate (processor index_pending) !! "/src/missing.html" = None /\
  trace (snd (prepare "/src/missing.html" index_pending)) = trace index_pending /\
  _generate (processor (snd (prepare "/src/missing.html" index_pending)))
  = _generate (processor index_pending) /\
  current_path (processor (snd (prepare "/src/missing.html" index_pending)))
  = Some "/src/missing.html" /\
  _set_contexts (processor (snd (prepare "/src/missing.html" index_pending))) = [].
Proof.
  assert (Hraise : prepare "/src/missing.html" index_pending
                   = (Raise OSError, snd (prepare "/src/missing.html" index_pending)))
    by reflexivity.
  split; [exact Hraise|].
  destruct (prepare_raises_before_registering "/src/missing.html" index_pending
              (snd (prepare "/src/missing.html" index_pending)) OSError Hraise)
    as (Hp & Htrace & Hgen & Hcur & _).
  split; [exact Hp|]. split; [exact Htrace|]. split; [exact Hgen|].
  split; [exact Hcur|]. reflexivity.
Defined.

Lemma index_is_pending_without_template_only :
  _generate (processor start) !! "/src/index.html" = None /\
  read_text (trace start) "/src/index.html" = Some text_index /\
  fresh_parse text_index = (Ok ast_index, [("title", PyStr "Home")]) /\
  ("template_only" ∉ (const_assignments ast_index).*1) /\
  exists w',
    prepare "/src/index.html" start = (Ok tt, w') /\
    (_generate (processor w') !! "/src/index.html"
     = Some (target_path "/src/index.html", ast_index) <->
     ("template_only" ∉ (const_assignments ast_index).*1 \/
      exists c, last_assignment (const_assignments ast_index) "template_only" c /\
                truthy c = false)) /\
    (forall c, truthy c = false <->
               c = PyNone \/ c = PyBool false \/ c = PyInt 0 \/
               (exists s, c = PyFloat (S754_zero s)) \/ c = PyStr "").
Proof.
  split; [reflexivity|]. split; [reflexivity|]. split; [reflexivity|].
  split.
  { intros Hin. cbn in Hin. apply list_elem_of_singleton in Hin. discriminate. }
  apply (pending_unless_template_only "/src/index.html" start text_index ast_index
           [("title", PyStr "Home")]); reflexivity.
Defined.


Lemma post_is_left_empty_without_renderer :
  _generate (processor Outage.post_pending) !! "/src/post.html"
  = Some ("/build/src/post.html", ast_post) /\
  exists w',
    @generate Outage.no_render "/src/post.html" Outage.post_pending
    = (Raise TemplateError, w') /\
    trace w' = trace Outage.post_pending
               ++ [os_makedirs (@os_path_dirname Outage.no_render "/build/src/post.html");
                   open_w "/build/src/post.html"] /\
    written (trace w') = written (trace Outage.post_pending) /\
    _generate (processor w') !! "/src/post.html"
    = Some ("/build/src/post.html", ast_post).
Proof.
  split; [reflexivity|].
  destruct (proj1 (proj2 (proj2 (@generate_failures Outage.no_render "/src/post.html"
                                   Outage.post_pending "/build/src/post.html" ast_post
                                   eq_refl)))
              text_post ast_post eq_refl eq_refl eq_refl eq_refl eq_refl
              (Forall_nil_2 _)) as [Hrender _].
  destruct (Hrender eq_refl) as (w' & Hraise & Htrace & Hwritten).
  exists w'. split; [exact Hraise|]. split; [exact Htrace|]. split; [exact Hwritten|].
  apply (proj2 (proj2 (proj2 (@generate_failures Outage.no_render "/src/post.html"
                                Outage.post_pending "/build/src/post.html" ast_post
                                eq_refl)))
           TemplateError w' Hraise).
Defined.

Lemma post_among_the_contexts :
  contexts_get_contexts [] (PyStr "kind") (PyStr "post") !! 0
  = Some "/src/post.html" /\
  exists entry,
    get_contexts [] (PyStr "kind") (PyStr "post") !! 0 = Some entry /\
    entry !! "url" = Some (ContextVar (PyStr "/elsewhere")) /\
    entry !! "title" = Some (ContextVar (PyStr "A post")) /\
    entry !! "size" = Some (FileData (JNum 31)).
Proof.
  assert (Hresult : contexts_get_contexts [] (PyStr "kind") (PyStr "post") !! 0
                    = Some "/src/post.html") by reflexivity.
  split; [exact Hresult|].
  destruct (get_contexts_variables_first [] (PyStr "kind") (PyStr "post") 0
              "/src/post.html" Hresult) as (entry & Hentry & Hvars & Hfile & _).
  exists entry. split; [exact Hentry|]. split; [|split].
  - apply Hvars. exists [("title", PyStr "Post")], [("title", PyStr "A post")].
    split; [reflexivity|]. cbn. intros Hin.
    apply list_elem_of_singleton in Hin. discriminate.
  - apply Hvars. exists [("title", PyStr "Post"); ("url", PyStr "/elsewhere")], [].
    split; [reflexivity|]. apply not_elem_of_nil.
  - rewrite Hfile; [reflexivity|]. cbn. intros Hin.
    repeat (apply elem_of_cons in Hin as [Hin|Hin]; [discriminate|]).
    apply elem_of_nil in Hin. exact Hin.
Defined.

(** A call of any function on two constants is a context request. *)
Example range_is_a_context_request :
  _get_context_requests
    (Other "Template"
       [Other "For" [Name "i" "store";
                     Call (Name "range" "load") [Const (PyInt 1); Const (PyInt 5)]
                       [] None None]])
  = [(PyInt 1, PyInt 5)].
Proof. reflexivity. Qed.

(** The rendering of the post loads its layout, and the processor then
    holds the title of the layout, not the one of the post. *)
Example layout_title_is_collected_by_rendering :
  dict_get (_set_contexts (processor Layout.post_pending)) "title"
  = Some (PyStr "Post") /\
  fst (@generate Layout.extending "/src/post.html" Layout.post_pending) = Ok tt /\
  dict_get (_set_contexts (processor
              (snd (@generate Layout.extending "/src/post.html" Layout.post_pending))))
    "title" = Some (PyStr "Layout").
Proof. repeat split. Qed.
